(** * JIT profiling instrumentation (src/jitprof.cpp)

    A shallow embedding of the two instrumentation passes, the profile
    store and its dump routine.  The LLVM data the passes touch is
    modelled by a small IR: constants, metadata tuples, instructions,
    basic blocks with one terminator each, functions with named metadata
    attachments.  C++ operations that abort (a failed [cast<>], a failed
    [assert], a null dereference, an index past the end of a vector) are
    results in an error monad. *)

From Stdlib Require Import ZArith Strings.String Strings.Ascii Numbers.DecimalString.
From stdpp Require Import base option list gmap strings.

Local Open Scope string_scope.
Local Open Scope list_scope.
Local Open Scope Z_scope.

(** ** Fallible computations *)

Inductive fault : Type :=
| BadCast          (* cast<T>(v) on a value that is not a T *)
| AssertionFailed  (* assert(...) does not hold *)
| NullDeref        (* -> on a null pointer *)
| OutOfBounds.     (* operator[] or getOperand past the end *)

Inductive result (A : Type) : Type :=
| Ok (a : A)
| Fault (f : fault).
Arguments Ok {A} a.
Arguments Fault {A} f.

#[global] Instance result_ret : MRet result := fun _ a => Ok a.

#[global] Instance result_bind : MBind result := fun _ _ k m =>
  match m with
  | Ok a => k a
  | Fault f => Fault f
  end.

Definition assert (b : bool) : result unit :=
  if b then Ok tt else Fault AssertionFailed.

#[global] Instance fault_eq_dec : EqDecision fault.
Proof. solve_decision. Defined.

(** ** Unsigned 64-bit arithmetic *)

Definition u64_modulus : Z := 2 ^ 64.

Definition wrap64 (z : Z) : Z := z mod u64_modulus.

Definition wrap32 (z : Z) : Z := z mod 2 ^ 32.

(** ** The IR the passes read and rewrite *)

(** The field of a [FunctionProfile] whose address the instrumented code
    holds, [&Prof.CallCount], [&Prof.Preopt.Size], [&BI->Taken], ... *)
Inductive Cell : Type :=
| CallCountCell
| AllocSizeCell (preopt : bool)
| AllocCountCell (preopt : bool)
| TakenCell (idx : nat)
| TotalCell (idx : nat).

Inductive Constant : Type :=
| ConstantInt (bits : N) (v : Z)
    (* an integer constant of the given width, [v] its unsigned value *)
| CounterAddr (fn : string) (c : Cell)
    (* ConstantInt::get(i64, (uint64_t)&field) for a field of the profile
       stored under [fn] *)
| IntToPtr (c : Constant)
| OtherConstant (text : string).

Inductive Metadata : Type :=
| ConstantAsMetadata (c : Constant)
| OtherMetadata (text : string).

Inductive MDNode : Type :=
| MDTuple (ops : list Metadata)
| BranchWeights (ifTrue ifFalse : Z)      (* MDBuilder::createBranchWeights *)
| FunctionEntryCount (n : Z)              (* MDBuilder::createFunctionEntryCount *)
| OtherMDNode (text : string).

(** Block identities.  The two blocks made by splitting a block are named
    after the block that was split. *)
Inductive label : Type :=
| Block (n : nat)
| ThenOf (l : label)
| TailOf (l : label).

(** Value identities: values of the function as it was given, and the
    values the instrumentation creates, named after the source's
    variables and the site they are created for. *)
Inductive reg : Type :=
| Numbered (n : nat)            (* %n of the function as it was given *)
| CallCountReg                 (* CallCount in addCallInstrumentation *)
| ReportReg                    (* Report in addCallInstrumentation *)
| CondExtReg (bb : nat)        (* the zext of the condition of block bb *)
| AllocSizeReg (bb i : nat).   (* the cast of the size at call i of block bb *)

Inductive Value : Type :=
| VConst (c : Constant)
| VReg (r : reg)
| VArg (n : nat).

Inductive Callee : Type :=
| Direct (name : string)       (* getCalledFunction() is this function *)
| Indirect (fp : Value).       (* getCalledFunction() is null *)

Inductive Instruction : Type :=
| AtomicRMWAdd (res : option reg) (ptr : Value) (val : Value)
    (* atomicrmw add, monotonic; [res] names the value the instruction
       yields when a later instruction uses it *)
| ZExt64 (res : reg) (v : Value)
| IntCast64 (res : reg) (v : Value)
| ICmpEQ (res : reg) (a b : Value)
| CallInst (callee : Callee) (args : list Value)
| OtherInst (text : string).

Inductive TermKind : Type :=
| Br (target : label)
| CondBr (cond : Value) (ifTrue ifFalse : label)
| OtherTerm (text : string).   (* ret, switch, invoke, unreachable, ... *)

Record Terminator : Type := mkTerminator {
  term_kind : TermKind;
  term_prof : option MDNode    (* the MD_prof attachment *)
}.

Record BasicBlock : Type := mkBasicBlock {
  bb_label : label;
  bb_insts : list Instruction;  (* every instruction but the terminator *)
  bb_term : Terminator
}.

Record Function : Type := mkFunction {
  getName : string;
  getMetadata : gmap string MDNode;
  blocks : list BasicBlock
}.

#[global] Instance Cell_eq_dec : EqDecision Cell.
Proof. solve_decision. Defined.
#[global] Instance Constant_eq_dec : EqDecision Constant.
Proof. solve_decision. Defined.
#[global] Instance Metadata_eq_dec : EqDecision Metadata.
Proof. solve_decision. Defined.
#[global] Instance MDNode_eq_dec : EqDecision MDNode.
Proof. solve_decision. Defined.
#[global] Instance label_eq_dec : EqDecision label.
Proof. solve_decision. Defined.
#[global] Instance reg_eq_dec : EqDecision reg.
Proof. solve_decision. Defined.
#[global] Instance Value_eq_dec : EqDecision Value.
Proof. solve_decision. Defined.

(** ** ProfilingFlags and their resolution *)

(** Modelled from the spec: the declaration of [ProfilingFlags] is in
    jitprof.h, which is not part of the sources; its four fields are taken
    in the order in which [toMDNode] writes them. *)
Record ProfilingFlags : Type := mkProfilingFlags {
  ProfileAllocations : bool;
  ProfileBranches : bool;
  ProfileCalls : bool;
  ApplyPGO : bool
}.

(** The three [cl::opt<bool>] switches of the process. *)
Record ForceSwitches : Type := mkForceSwitches {
  ForceProfileAllocations : bool;
  ForceProfileCalls : bool;
  ForceProfileBranches : bool
}.

Definition getNumOperands (ops : list Metadata) : nat := length ops.

Definition getOperand (ops : list Metadata) (Idx : nat) : result Metadata :=
  match ops !! Idx with
  | Some m => Ok m
  | None => Fault OutOfBounds
  end.

Definition castMDTuple (MDN : MDNode) : result (list Metadata) :=
  match MDN with
  | MDTuple ops => Ok ops
  | _ => Fault BadCast
  end.

(** [extractProfNum]: the operand must be a constant, and that constant
    an integer; the integer is returned with its width. *)
Definition extractProfNum (MD : list Metadata) (Idx : nat) : result (N * Z) :=
  op ← getOperand MD Idx;
  match op with
  | ConstantAsMetadata (ConstantInt bits v) => Ok (bits, v)
  | _ => Fault BadCast
  end.

(** [ConstantInt::getZExtValue] asserts that the value needs no more
    than 64 bits. *)
Definition getZExtValue (c : N * Z) : result Z :=
  _ ← assert (snd c <? u64_modulus);
  Ok (snd c).

(** The constant read as a signed number of its width. *)
Definition signedValue (c : N * Z) : Z :=
  let half := 2 ^ (Z.of_N (fst c) - 1) in
  (snd c + half) mod (2 * half) - half.

(** [ConstantInt::getSExtValue] asserts that the signed value needs no
    more than 64 bits. *)
Definition getSExtValue (c : N * Z) : result Z :=
  let s := signedValue c in
  _ ← assert ((- 2 ^ 63 <=? s) && (s <? 2 ^ 63));
  Ok s.

Definition nonzero (z : Z) : bool := negb (z =? 0).

Definition fromMDNode (MDN : MDNode) : result ProfilingFlags :=
  MD ← castMDTuple MDN;
  _ ← assert (Nat.eqb (getNumOperands MD) 4);
  a ← extractProfNum MD 0 ≫= getZExtValue;
  b ← extractProfNum MD 1 ≫= getZExtValue;
  c ← extractProfNum MD 2 ≫= getZExtValue;
  d ← extractProfNum MD 3 ≫= getZExtValue;
  Ok (mkProfilingFlags (nonzero a) (nonzero b) (nonzero c) (nonzero d)).

Definition toMDNode (Flags : ProfilingFlags) : MDNode :=
  let getBool (b : bool) := ConstantAsMetadata (ConstantInt 1 (if b then 1 else 0)) in
  MDTuple [getBool (ProfileAllocations Flags);
           getBool (ProfileBranches Flags);
           getBool (ProfileCalls Flags);
           getBool (ApplyPGO Flags)].

Definition fromFunction (sw : ForceSwitches) (F : Function) : result ProfilingFlags :=
  let Flags := mkProfilingFlags false false false false in
  match getMetadata F !! "julia.prof" with
  | Some ProfMD => fromMDNode ProfMD
  | None =>
      Ok (mkProfilingFlags
            (ProfileAllocations Flags || ForceProfileAllocations sw)
            (ProfileBranches Flags || ForceProfileBranches sw)
            (ProfileCalls Flags || ForceProfileCalls sw)
            (ApplyPGO Flags))
  end.

(** ** The profile records *)

(** Modelled from the spec: [FunctionProfile], its nested [AllocInfo] and
    [BranchInfo] and the store's map are declared in jitprof.h, which is
    not part of the sources.  Counters are unsigned 64-bit numbers, a
    branch slot is a possibly null owning pointer, the store maps a
    function name to its profile, and a new profile starts with every
    counter at zero and no branch slots. *)
Module AllocInfo.
Record t : Type := mk { Size : Z; Count : Z }.
End AllocInfo.

Module BranchInfo.
Record t : Type := mk { Taken : Z; Total : Z }.
End BranchInfo.

Record FunctionProfile : Type := mkFunctionProfile {
  CallCount : Z;
  Preopt : AllocInfo.t;
  Postopt : AllocInfo.t;
  BranchProfiles : list (option BranchInfo.t);
  Loops : Z;
  BBs : Z;
  Insts : Z
}.

Abbreviation ProfileStore := (gmap string FunctionProfile).

Definition make_unique_FunctionProfile : FunctionProfile :=
  mkFunctionProfile 0 (AllocInfo.mk 0 0) (AllocInfo.mk 0 0) [] 0 0 0.

#[global] Instance AllocInfo_eq_dec : EqDecision AllocInfo.t.
Proof. solve_decision. Defined.
#[global] Instance BranchInfo_eq_dec : EqDecision BranchInfo.t.
Proof. solve_decision. Defined.
#[global] Instance FunctionProfile_eq_dec : EqDecision FunctionProfile.
Proof. solve_decision. Defined.

Definition set_CallCount (v : Z) (P : FunctionProfile) : FunctionProfile :=
  mkFunctionProfile v (Preopt P) (Postopt P) (BranchProfiles P) (Loops P) (BBs P) (Insts P).

Definition set_Preopt (a : AllocInfo.t) (P : FunctionProfile) : FunctionProfile :=
  mkFunctionProfile (CallCount P) a (Postopt P) (BranchProfiles P) (Loops P) (BBs P) (Insts P).

Definition set_Postopt (a : AllocInfo.t) (P : FunctionProfile) : FunctionProfile :=
  mkFunctionProfile (CallCount P) (Preopt P) a (BranchProfiles P) (Loops P) (BBs P) (Insts P).

Definition set_BranchProfiles (b : list (option BranchInfo.t)) (P : FunctionProfile) : FunctionProfile :=
  mkFunctionProfile (CallCount P) (Preopt P) (Postopt P) b (Loops P) (BBs P) (Insts P).

(** ** The store *)

Definition getProfile (FunctionProfiles : ProfileStore) (Name : string) : option FunctionProfile :=
  FunctionProfiles !! Name.

Definition getOrCreateProfile (FunctionProfiles : ProfileStore) (Name : string)
    (Create : unit -> FunctionProfile) : FunctionProfile * ProfileStore :=
  match FunctionProfiles !! Name with
  | Some Prof => (Prof, FunctionProfiles)
  | None =>
      let Prof := Create tt in
      (Prof, <[Name := Prof]> FunctionProfiles)
  end.

(** ** Small accessors of the IR *)

Definition set_blocks (bs : list BasicBlock) (F : Function) : Function :=
  mkFunction (getName F) (getMetadata F) bs.

Definition setMetadata (Kind : string) (MD : MDNode) (F : Function) : Function :=
  mkFunction (getName F) (<[Kind := MD]> (getMetadata F)) (blocks F).

(** [LLVMContext::MD_prof] *)
Definition MD_prof : string := "prof".

Definition set_term_prof (MD : MDNode) (BB : BasicBlock) : BasicBlock :=
  mkBasicBlock (bb_label BB) (bb_insts BB)
    (mkTerminator (term_kind (bb_term BB)) (Some MD)).

(** [BasicBlock::size]: the instructions and the terminator. *)
Definition BasicBlock_size (BB : BasicBlock) : Z := Z.of_nat (length (bb_insts BB)) + 1.

(** The pointer constant for a counter of the profile stored under [fn]. *)
Definition counterPtr (fn : string) (c : Cell) : Value :=
  VConst (IntToPtr (CounterAddr fn c)).

Definition i64 (v : Z) : Value := VConst (ConstantInt 64 v).

(** The two MDBuilder calls keep their arguments as the source computes
    them; what the builder does with them is LLVM's. *)
Definition createBranchWeights (TrueWeight FalseWeight : Z) : MDNode :=
  BranchWeights TrueWeight FalseWeight.

Definition createFunctionEntryCount (Count : Z) : MDNode :=
  FunctionEntryCount Count.

(** ** Call-count instrumentation *)

(** The constant arguments of the reporter: operands 2.. of the reporter
    tuple, each of which must be a constant. *)
Fixpoint collectArgs (ops : list Metadata) : result (list Value) :=
  match ops with
  | [] => Ok []
  | ConstantAsMetadata Arg :: rest =>
      Args ← collectArgs rest;
      Ok (VConst Arg :: Args)
  | _ :: _ => Fault BadCast
  end.

(** [SplitBlockAndInsertIfThen(Cond, SplitBefore, false, Weights)] with
    [SplitBefore] the first instruction of [BB] that the caller did not
    insert: the instructions [Inserted] stay in the head, which now ends
    in a conditional branch; the tail takes the old contents and the old
    terminator; the new block between them only branches to the tail.
    [ThenInsts] are the instructions the caller then puts in front of
    that branch. *)
Definition SplitBlockAndInsertIfThen (Cond : Value) (Inserted : list Instruction)
    (BB : BasicBlock) (Weights : MDNode) (ThenInsts : list Instruction)
    : list BasicBlock :=
  let Head := bb_label BB in
  let ThenBlock := ThenOf Head in
  let Tail := TailOf Head in
  [ mkBasicBlock Head Inserted
      (mkTerminator (CondBr Cond ThenBlock Tail) (Some Weights));
    mkBasicBlock ThenBlock ThenInsts (mkTerminator (Br Tail) None);
    mkBasicBlock Tail (bb_insts BB) (bb_term BB) ].

(** The insertion point is the first insertion point of the entry block,
    which has no phi nodes: the head of its instruction list. *)
Definition addCallInstrumentation (Prof : FunctionProfile) (F : Function)
    : result Function :=
  match blocks F with
  | [] => Fault OutOfBounds
  | Entry :: Rest =>
      let CallPtr := counterPtr (getName F) CallCountCell in
      (* Increment call count by one *)
      let CallCount_ := AtomicRMWAdd (Some CallCountReg) CallPtr (i64 1) in
      match getMetadata F !! "julia.prof.reporter" with
      | Some ReporterMDRaw =>
          ReporterMD ← castMDTuple ReporterMDRaw;
          _ ← assert (bool_decide (2 ≤ getNumOperands ReporterMD)%nat);
          Limit ← extractProfNum ReporterMD 0;
          (* an integer comparison needs both operands of one type *)
          _ ← assert (N.eqb (fst Limit) 64);
          let Report := ICmpEQ ReportReg (VReg CallCountReg)
                          (VConst (ConstantInt (fst Limit) (snd Limit))) in
          LimitS ← getSExtValue Limit;
          let Weights := createBranchWeights 1 (wrap64 (LimitS - CallCount Prof)) in
          (* Collect all the arguments and types *)
          Args ← collectArgs (drop 2 ReporterMD);
          ReporterAddr ← extractProfNum ReporterMD 1;
          let ReporterF :=
            VConst (IntToPtr (ConstantInt (fst ReporterAddr) (snd ReporterAddr))) in
          Ok (set_blocks
                (SplitBlockAndInsertIfThen (VReg ReportReg) [CallCount_; Report]
                   Entry Weights [CallInst (Indirect ReporterF) Args] ++ Rest)
                F)
      | None =>
          Ok (set_blocks
                (mkBasicBlock (bb_label Entry) (CallCount_ :: bb_insts Entry)
                   (bb_term Entry) :: Rest)
                F)
      end
  end.

(** ** Branch instrumentation *)

(** What the builder positioned at the branch [Br] of block number [BBidx]
    creates: the add on Total, the zext of the condition, the add on
    Taken. *)
Definition branchCounters (fn : string) (BBidx : nat) (Cond : Value)
    : list Instruction :=
  let TakenPtr := counterPtr fn (TakenCell BBidx) in
  let TotalPtr := counterPtr fn (TotalCell BBidx) in
  [ AtomicRMWAdd None TotalPtr (i64 1);
    ZExt64 (CondExtReg BBidx) Cond;
    AtomicRMWAdd None TakenPtr (VReg (CondExtReg BBidx)) ].

Definition instrumentBranch (fn : string) (BBidx : nat) (Cond : Value)
    (BB : BasicBlock) : BasicBlock :=
  mkBasicBlock (bb_label BB) (bb_insts BB ++ branchCounters fn BBidx Cond)
    (bb_term BB).

(** The loop [for (auto &BB : F)] of [addBranchInstrumentation], with its
    counter [BBidx] and the slots it fills.  The [continue] of the source
    goes to the next block without reaching [BBidx++]. *)
Fixpoint addBranchInstrumentation_loop (fn : string) (BBs_ : list BasicBlock)
    (BBidx : nat) (Slots : list (option BranchInfo.t))
    : result (list (option BranchInfo.t) * list BasicBlock) :=
  match BBs_ with
  | [] => Ok (Slots, [])
  | BB :: rest =>
      match term_kind (bb_term BB) with
      | Br _ | CondBr (VConst _) _ _ =>
          (* isUnconditional() || isa<Constant>(getCondition()): continue *)
          '(Slots', rest') ← addBranchInstrumentation_loop fn rest BBidx Slots;
          Ok (Slots', BB :: rest')
      | CondBr Cond _ _ =>
          match Slots !! BBidx with
          | None => Fault OutOfBounds
          | Some BI =>
              let Slots1 :=
                match BI with
                | None => <[BBidx := Some (BranchInfo.mk 0 0)]> Slots
                | Some _ => Slots
                end in
              '(Slots', rest') ←
                addBranchInstrumentation_loop fn rest (S BBidx) Slots1;
              Ok (Slots', instrumentBranch fn BBidx Cond BB :: rest')
          end
      | OtherTerm _ =>
          '(Slots', rest') ← addBranchInstrumentation_loop fn rest (S BBidx) Slots;
          Ok (Slots', BB :: rest')
      end
  end.

Definition addBranchInstrumentation (Prof : FunctionProfile) (F : Function)
    : result (FunctionProfile * Function) :=
  let Slots :=
    match BranchProfiles Prof with
    | [] => replicate (length (blocks F)) None      (* resize(F.size()) *)
    | _ => BranchProfiles Prof
    end in
  _ ← assert (Nat.eqb (length Slots) (length (blocks F)));
  '(Slots', blocks') ← addBranchInstrumentation_loop (getName F) (blocks F) 0 Slots;
  Ok (set_BranchProfiles Slots' Prof, set_blocks blocks' F).

(** ** Applying collected counts *)

Fixpoint applyPGOInstrumentation_loop (Slots : list (option BranchInfo.t))
    (BBs_ : list BasicBlock) (BBidx : nat) : result (list BasicBlock) :=
  match BBs_ with
  | [] => Ok []
  | BB :: rest =>
      match Slots !! BBidx with          (* Prof.BranchProfiles[BBidx] *)
      | None => Fault OutOfBounds
      | Some None => Fault NullDeref     (* Branch->Taken on a null slot *)
      | Some (Some Branch) =>
          let Taken := BranchInfo.Taken Branch in
          let Total := BranchInfo.Total Branch in
          let BB' :=
            if 0 <? Total
            then set_term_prof (createBranchWeights Taken (wrap64 (Total - Taken))) BB
            else BB in
          rest' ← applyPGOInstrumentation_loop Slots rest (S BBidx);
          Ok (BB' :: rest')
      end
  end.

Definition applyPGOInstrumentation (Prof : FunctionProfile) (F : Function)
    : result Function :=
  let Calls := CallCount Prof in
  let F1 := setMetadata MD_prof (createFunctionEntryCount Calls) F in
  blocks' ← applyPGOInstrumentation_loop (BranchProfiles Prof) (blocks F1) 0;
  Ok (set_blocks blocks' F1).

(** ** Allocation instrumentation *)

(** [StringRef::contains] *)
Fixpoint contains (hay needle : string) : bool :=
  String.prefix needle hay ||
  match hay with
  | EmptyString => false
  | String _ rest => contains rest needle
  end.

Definition isAllocCall (Preopt_ : bool) (Name : string) : bool :=
  if Preopt_ then String.eqb Name "julia.gc_alloc_obj"
  else contains Name "jl_gc_pool_alloc" || contains Name "jl_gc_big_alloc".

(** What is put in front of the instruction [CI], call number [i] of block
    number [bb].  The cast of the size is kept as an instruction of its
    own also where the builder would fold it away. *)
Definition allocCounters (fn : string) (Preopt_ : bool) (bb i : nat)
    (CI : Instruction) : result (list Instruction) :=
  let Size := counterPtr fn (AllocSizeCell Preopt_) in
  let Count := counterPtr fn (AllocCountCell Preopt_) in
  match CI with
  | CallInst (Direct Name) args =>
      if isAllocCall Preopt_ Name then
        match args !! 1%nat with           (* CI->getArgOperand(1) *)
        | None => Fault OutOfBounds
        | Some SizeArg =>
            Ok [ IntCast64 (AllocSizeReg bb i) SizeArg;
                 (* Increment size by the size of the allocation *)
                 AtomicRMWAdd None Size (VReg (AllocSizeReg bb i));
                 (* Increment count by one *)
                 AtomicRMWAdd None Count (i64 1) ]
        end
      else Ok []
  | _ => Ok []
  end.

Fixpoint addAllocInstrumentation_insts (fn : string) (Preopt_ : bool)
    (bb i : nat) (insts : list Instruction) : result (list Instruction) :=
  match insts with
  | [] => Ok []
  | CI :: rest =>
      new ← allocCounters fn Preopt_ bb i CI;
      rest' ← addAllocInstrumentation_insts fn Preopt_ bb (S i) rest;
      Ok (new ++ CI :: rest')
  end.

Fixpoint addAllocInstrumentation_blocks (fn : string) (Preopt_ : bool)
    (bb : nat) (BBs_ : list BasicBlock) : result (list BasicBlock) :=
  match BBs_ with
  | [] => Ok []
  | BB :: rest =>
      insts' ← addAllocInstrumentation_insts fn Preopt_ bb 0 (bb_insts BB);
      rest' ← addAllocInstrumentation_blocks fn Preopt_ (S bb) rest;
      Ok (mkBasicBlock (bb_label BB) insts' (bb_term BB) :: rest')
  end.

(** [Prof] of the source is the [Preopt] or the [Postopt] record of the
    profile stored under the function's name; only its address is used. *)
Definition addAllocInstrumentation (Preopt_ : bool) (F : Function) : result Function :=
  blocks' ← addAllocInstrumentation_blocks (getName F) Preopt_ 0 (blocks F);
  Ok (set_blocks blocks' F).

(** ** The two passes *)

Module PreservedAnalyses.
Inductive t : Type :=
| all      (* PreservedAnalyses::all() *)
| none.    (* PreservedAnalyses::none(), and PreservedAnalyses() *)
End PreservedAnalyses.

#[global] Instance PreservedAnalyses_eq_dec : EqDecision PreservedAnalyses.t.
Proof. solve_decision. Defined.

(** What a run of a pass leaves behind: its answer, the function, and the
    store behind the pointer [JITProf] (null when there is none). *)
Definition PassResult : Type :=
  PreservedAnalyses.t * Function * option ProfileStore.

Definition JITPostoptimizationProfiler_run (sw : ForceSwitches)
    (JITProf : option ProfileStore) (F : Function) : result PassResult :=
  match JITProf with
  | None => Ok (PreservedAnalyses.all, F, JITProf)
  | Some FunctionProfiles =>
      Flags ← fromFunction sw F;
      if negb (ProfileAllocations Flags) && negb (ProfileCalls Flags)
      then Ok (PreservedAnalyses.all, F, JITProf)
      else
        match getProfile FunctionProfiles (getName F) with
        | None => Ok (PreservedAnalyses.all, F, JITProf)
        | Some Prof =>
            F1 ← (if ProfileCalls Flags then addCallInstrumentation Prof F else Ok F);
            F2 ← (if ProfileAllocations Flags
                  then addAllocInstrumentation false F1 else Ok F1);
            (* Call instrumentation could add a branch, invalidating the CFG *)
            Ok (PreservedAnalyses.none, F2, JITProf)
        end
  end.

(** [std::accumulate] over the blocks with an [unsigned] accumulator. *)
Definition countInsts (F : Function) : Z :=
  fold_left (fun Acc BB => wrap32 (Acc + BasicBlock_size BB)) (blocks F) 0.

(** [LoopCount] is what [FAM.getResult<LoopAnalysis>(F)] yields: the
    number of loops of the function in preorder. *)
Definition JITPreoptimizationProfiler_run (sw : ForceSwitches)
    (LoopCount : Function -> Z)
    (JITProf : option ProfileStore) (F : Function) : result PassResult :=
  match JITProf with
  | None => Ok (PreservedAnalyses.all, F, JITProf)
  | Some FunctionProfiles =>
      Flags ← fromFunction sw F;
      if negb (ProfileBranches Flags) && negb (ProfileAllocations Flags)
         && negb (ApplyPGO Flags)
      then Ok (PreservedAnalyses.all, F, JITProf)
      else
        let '(Prof, FunctionProfiles1) :=
          getOrCreateProfile FunctionProfiles (getName F) (fun _ =>
            let FP := make_unique_FunctionProfile in
            mkFunctionProfile (CallCount FP) (Preopt FP) (Postopt FP)
              (BranchProfiles FP)
              (LoopCount F) (Z.of_nat (length (blocks F))) (countInsts F)) in
        '(Prof1, F1) ← (if ProfileBranches Flags
                         then addBranchInstrumentation Prof F else Ok (Prof, F));
        F2 ← (if ProfileAllocations Flags
              then addAllocInstrumentation true F1 else Ok F1);
        F3 ← (if ApplyPGO Flags then applyPGOInstrumentation Prof1 F2 else Ok F2);
        (* [Prof] is a reference into the store: what was done to it is
           seen there *)
        (* If we apply PGO we must clobber almost everything due to branch
           weights updating *)
        Ok (PreservedAnalyses.none, F3,
            Some (<[getName F := Prof1]> FunctionProfiles1))
  end.

(** ** Dump *)

(** The stream [OS] is the text written to it so far; [OS << x] appends. *)
Definition dq : string := String "034"%char EmptyString.
Definition nl : string := String "010"%char EmptyString.

(** An unsigned number as [raw_ostream] prints it: in decimal. *)
Definition show (n : Z) : string := NilZero.string_of_uint (N.to_uint (Z.to_N n)).

Definition show_nat (n : nat) : string := NilZero.string_of_uint (Nat.to_uint n).

(** The key [k] of an object: [k] in double quotes, then a colon. *)
Definition key (k : string) : string := dq +:+ k +:+ dq +:+ ":".

(** The loop [for (Idx = 0; Idx < Count; Idx++)] over the slots, with its
    flag [Comma]; it yields the flag and the stream. *)
Fixpoint dump_branches_loop (Slots : list (option BranchInfo.t)) (Idx : nat)
    (Comma : bool) (OS : string) : bool * string :=
  match Slots with
  | [] => (Comma, OS)
  | None :: rest => dump_branches_loop rest (S Idx) Comma OS      (* continue *)
  | Some Branch :: rest =>
      let OS1 := if Comma then OS +:+ "," else OS +:+ key "Branches" +:+ "[" in
      let OS2 := OS1 +:+ "{" +:+ key "Idx" +:+ show_nat Idx
                     +:+ "," +:+ key "Taken" +:+ show (BranchInfo.Taken Branch)
                     +:+ "," +:+ key "Total" +:+ show (BranchInfo.Total Branch)
                     +:+ "}" in
      dump_branches_loop rest (S Idx) true OS2
  end.

Definition dump_branches (Slots : list (option BranchInfo.t)) (OS : string) : string :=
  match Slots with
  | [] => OS                                   (* BranchProfiles.empty() *)
  | _ =>
      let '(Comma, OS1) := dump_branches_loop Slots 0 false OS in
      if Comma then OS1 +:+ "]," else OS1
  end.

Definition dump_profile (Name : string) (P : FunctionProfile) (OS : string) : string :=
  let OS1 := OS +:+ "{" +:+ key "Name" +:+ dq +:+ Name +:+ dq +:+ "," in
  let OS2 :=
    if nonzero (CallCount P)
    then OS1 +:+ key "Calls" +:+ show (CallCount P) +:+ ","
    else OS1 in
  let OS3 :=
    if nonzero (AllocInfo.Count (Preopt P)) || nonzero (AllocInfo.Count (Postopt P))
    then OS2 +:+ key "Allocs" +:+ "["
             +:+ "{" +:+ key "Size" +:+ show (AllocInfo.Size (Preopt P))
             +:+ "," +:+ key "Count" +:+ show (AllocInfo.Count (Preopt P)) +:+ "},"
             +:+ "{" +:+ key "Size" +:+ show (AllocInfo.Size (Postopt P))
             +:+ "," +:+ key "Count" +:+ show (AllocInfo.Count (Postopt P)) +:+ "}"
             +:+ "],"
    else OS2 in
  let OS4 := dump_branches (BranchProfiles P) OS3 in
  let OS5 :=
    if nonzero (Loops P)
    then OS4 +:+ key "Loops" +:+ show (Loops P) +:+ ","
    else OS4 in
  OS5 +:+ key "BBs" +:+ show (BBs P) +:+ ","
      +:+ key "Insts" +:+ show (Insts P) +:+ "}".

(** The loop over the entries of the map, with the countdown [Count]
    that decides where a comma goes. *)
Fixpoint dump_loop (KVs : list (string * FunctionProfile)) (Count : nat)
    (OS : string) : string :=
  match KVs with
  | [] => OS
  | KV :: rest =>
      let OS1 := dump_profile (fst KV) (snd KV) OS in
      let Count' := Nat.pred Count in                       (* --Count *)
      let OS2 := if negb (Nat.eqb Count' 0) then OS1 +:+ "," else OS1 in
      dump_loop rest Count' OS2
  end.

(** [map_to_list] stands for the order in which the map hands out its
    entries; for one store it is one order. *)
Definition dump (FunctionProfiles : ProfileStore) (OS : string) : string :=
  let OS1 := OS +:+ "[" in
  let Count := size FunctionProfiles in
  let OS2 := dump_loop (map_to_list FunctionProfiles) Count OS1 in
  OS2 +:+ "]" +:+ nl.

(** ** Running instrumented code

    The counters live in the profiles of the store, so the store is the
    memory the instrumented code updates.  The interpreter covers the
    instructions the passes insert; any other instruction is outside it. *)

Definition loadCell (P : FunctionProfile) (c : Cell) : option Z :=
  match c with
  | CallCountCell => Some (CallCount P)
  | AllocSizeCell true => Some (AllocInfo.Size (Preopt P))
  | AllocSizeCell false => Some (AllocInfo.Size (Postopt P))
  | AllocCountCell true => Some (AllocInfo.Count (Preopt P))
  | AllocCountCell false => Some (AllocInfo.Count (Postopt P))
  | TakenCell i => BranchInfo.Taken <$> (BranchProfiles P !! i ≫= id)
  | TotalCell i => BranchInfo.Total <$> (BranchProfiles P !! i ≫= id)
  end.

Definition storeCell (P : FunctionProfile) (c : Cell) (v : Z) : FunctionProfile :=
  match c with
  | CallCountCell => set_CallCount v P
  | AllocSizeCell true =>
      set_Preopt (AllocInfo.mk v (AllocInfo.Count (Preopt P))) P
  | AllocSizeCell false =>
      set_Postopt (AllocInfo.mk v (AllocInfo.Count (Postopt P))) P
  | AllocCountCell true =>
      set_Preopt (AllocInfo.mk (AllocInfo.Size (Preopt P)) v) P
  | AllocCountCell false =>
      set_Postopt (AllocInfo.mk (AllocInfo.Size (Postopt P)) v) P
  | TakenCell i =>
      set_BranchProfiles
        (alter (fmap (fun b => BranchInfo.mk v (BranchInfo.Total b))) i (BranchProfiles P)) P
  | TotalCell i =>
      set_BranchProfiles
        (alter (fmap (fun b => BranchInfo.mk (BranchInfo.Taken b) v)) i (BranchProfiles P)) P
  end.

(** A call through a constant function pointer, with its arguments. *)
Inductive Event : Type :=
| Called (fp : Constant) (args : list Value).

#[global] Instance Callee_eq_dec : EqDecision Callee.
Proof. solve_decision. Defined.
#[global] Instance Event_eq_dec : EqDecision Event.
Proof. solve_decision. Defined.

Record Machine : Type := mkMachine {
  memory : ProfileStore;
  regs : reg -> option Z;
  trace : list Event           (* oldest first *)
}.

Definition setReg (r : reg) (v : Z) (env : reg -> option Z) : reg -> option Z :=
  fun r' => if decide (r' = r) then Some v else env r'.

Definition eval (env : reg -> option Z) (v : Value) : option Z :=
  match v with
  | VConst (ConstantInt _ z) => Some z
  | VReg r => env r
  | _ => None
  end.

Definition exec_inst (i : Instruction) (m : Machine) : option Machine :=
  match i with
  | AtomicRMWAdd res (VConst (IntToPtr (CounterAddr fn c))) val =>
      v ← eval (regs m) val;
      P ← memory m !! fn;
      old ← loadCell P c;
      let mem' := <[fn := storeCell P c (wrap64 (old + v))]> (memory m) in
      (* the instruction yields the value the cell held before the add *)
      let env' := match res with
                  | Some r => setReg r old (regs m)
                  | None => regs m
                  end in
      Some (mkMachine mem' env' (trace m))
  | ZExt64 res v | IntCast64 res v =>
      x ← eval (regs m) v;
      Some (mkMachine (memory m) (setReg res x (regs m)) (trace m))
  | ICmpEQ res a b =>
      x ← eval (regs m) a;
      y ← eval (regs m) b;
      Some (mkMachine (memory m) (setReg res (if x =? y then 1 else 0) (regs m))
              (trace m))
  | CallInst (Indirect (VConst (IntToPtr fp))) args =>
      Some (mkMachine (memory m) (regs m) (trace m ++ [Called fp args]))
  | _ => None
  end.

Fixpoint exec_insts (insts : list Instruction) (m : Machine) : option Machine :=
  match insts with
  | [] => Some m
  | i :: rest => m' ← exec_inst i m; exec_insts rest m'
  end.

Definition findBlock (F : Function) (l : label) : option BasicBlock :=
  List.find (fun BB => bool_decide (bb_label BB = l)) (blocks F).

Definition successor (t : Terminator) (m : Machine) : option label :=
  match term_kind t with
  | Br target => Some target
  | CondBr cond ifTrue ifFalse =>
      c ← eval (regs m) cond;
      Some (if c =? 0 then ifFalse else ifTrue)
  | OtherTerm _ => None
  end.

(** Run from the start of block [cur] until control reaches block [stop]. *)
Fixpoint exec_until (fuel : nat) (F : Function) (stop cur : label) (m : Machine)
    : option Machine :=
  if decide (cur = stop) then Some m
  else
    match fuel with
    | O => None
    | S fuel' =>
        BB ← findBlock F cur;
        m' ← exec_insts (bb_insts BB) m;
        next ← successor (bb_term BB) m';
        exec_until fuel' F stop next m'
    end.

(** One call of a function whose entry was split by the call
    instrumentation: from the entry up to the tail, where the code the
    entry block had before resumes.  The result is the memory and the
    calls made. *)
Definition runEntry (F : Function) (mem : ProfileStore)
    : option (ProfileStore * list Event) :=
  match blocks F with
  | [] => None
  | Entry :: _ =>
      m ← exec_until (length (blocks F)) F (TailOf (bb_label Entry)) (bb_label Entry)
            (mkMachine mem (fun _ => None) []);
      Some (memory m, trace m)
  end.

(** [n] calls one after the other; the result lists, per call, the calls
    it made. *)
Fixpoint runCalls (n : nat) (F : Function) (mem : ProfileStore)
    : option (ProfileStore * list (list Event)) :=
  match n with
  | O => Some (mem, [])
  | S n' =>
      '(mem1, evs) ← runEntry F mem;
      '(mem2, rest) ← runCalls n' F mem1;
      Some (mem2, evs :: rest)
  end.

(** ** The report as the format describes it

    A second rendering, written from the description of the report and
    not from the loops of [dump]: the populated slots are collected
    first, each part is present or absent as a whole, and lists are
    joined with commas. *)

Fixpoint populated_from (Idx : nat) (Slots : list (option BranchInfo.t))
    : list (nat * BranchInfo.t) :=
  match Slots with
  | [] => []
  | None :: rest => populated_from (S Idx) rest
  | Some B :: rest => (Idx, B) :: populated_from (S Idx) rest
  end.

Definition populated (Slots : list (option BranchInfo.t)) : list (nat * BranchInfo.t) :=
  populated_from 0 Slots.

Definition optional (present : bool) (text : string) : string :=
  if present then text else "".

Definition report_branch (IB : nat * BranchInfo.t) : string :=
  "{" +:+ key "Idx" +:+ show_nat (fst IB)
      +:+ "," +:+ key "Taken" +:+ show (BranchInfo.Taken (snd IB))
      +:+ "," +:+ key "Total" +:+ show (BranchInfo.Total (snd IB)) +:+ "}".

Definition report_alloc (A : AllocInfo.t) : string :=
  "{" +:+ key "Size" +:+ show (AllocInfo.Size A)
      +:+ "," +:+ key "Count" +:+ show (AllocInfo.Count A) +:+ "}".

Definition has_populated (Slots : list (option BranchInfo.t)) : bool :=
  match populated Slots with
  | [] => false
  | _ => true
  end.

Definition report_profile (KV : string * FunctionProfile) : string :=
  let P := snd KV in
  "{" +:+ key "Name" +:+ dq +:+ fst KV +:+ dq +:+ ","
  +:+ optional (nonzero (CallCount P))
        (key "Calls" +:+ show (CallCount P) +:+ ",")
  +:+ optional (nonzero (AllocInfo.Count (Preopt P))
                || nonzero (AllocInfo.Count (Postopt P)))
        (key "Allocs" +:+ "[" +:+ report_alloc (Preopt P) +:+ ","
                      +:+ report_alloc (Postopt P) +:+ "],")
  +:+ optional (has_populated (BranchProfiles P))
        (key "Branches" +:+ "["
           +:+ String.concat "," (map report_branch (populated (BranchProfiles P)))
           +:+ "],")
  +:+ optional (nonzero (Loops P))
        (key "Loops" +:+ show (Loops P) +:+ ",")
  +:+ key "BBs" +:+ show (BBs P) +:+ ","
  +:+ key "Insts" +:+ show (Insts P) +:+ "}".

Definition report (FunctionProfiles : ProfileStore) : string :=
  "[" +:+ String.concat "," (map report_profile (map_to_list FunctionProfiles))
      +:+ "]" +:+ nl.

(** The blocks the call instrumentation puts in place of the entry block
    when there is a reporter with threshold [T], callback [fp] and
    arguments [Args]. *)
Definition reporterEntry (fn : string) (Entry : BasicBlock) (Weights : MDNode)
    (T : Z) (fp : Constant) (Args : list Value) : list BasicBlock :=
  SplitBlockAndInsertIfThen (VReg ReportReg)
    [ AtomicRMWAdd (Some CallCountReg) (counterPtr fn CallCountCell) (i64 1);
      ICmpEQ ReportReg (VReg CallCountReg) (VConst (ConstantInt 64 T)) ]
    Entry Weights [CallInst (Indirect (VConst (IntToPtr fp))) Args].

(** ** What successive calls report

    What [n] calls one after the other report when the counter stands at
    [c] before the first of them and the check compares the value found
    there with [T]: the call that finds [T] reports, the others are
    silent. *)
Fixpoint expectedReports (T : Z) (report : Event) (c : Z) (n : nat)
    : list (list Event) :=
  match n with
  | O => []
  | S n' =>
      (if c =? T then [report] else []) :: expectedReports T report (c + 1) n'
  end.

(** The number of calls that reported something. *)
Definition reporting (fired : list (list Event)) : nat :=
  length (filter (fun evs => evs ≠ []) fired).

(** ** Concrete functions and stores used in the examples *)

Definition ret : Terminator := mkTerminator (OtherTerm "ret") None.

(** A function [name] of the given blocks that carries the annotation
    [julia.prof] for the given flags. *)
Definition annotated (name : string) (Flags : ProfilingFlags)
    (bs : list BasicBlock) : Function :=
  mkFunction name {[ "julia.prof" := toMDNode Flags ]} bs.

Definition switches_off : ForceSwitches := mkForceSwitches false false false.
Definition switches_on : ForceSwitches := mkForceSwitches true true true.

Definition no_loops : Function -> Z := fun _ => 0.

(** One block that returns. *)
Definition returning_block : BasicBlock :=
  mkBasicBlock (Block 0) [OtherInst "add"] ret.

(** [foo] annotated for allocations only; its one block calls nothing. *)
Definition foo_allocations_only : Function :=
  annotated "foo" (mkProfilingFlags true false false false) [returning_block].

Definition store_with_foo : ProfileStore :=
  {[ "foo" := make_unique_FunctionProfile ]}.

(** [foo] annotated for branches and apply-PGO, and for apply-PGO alone;
    its one block ends in a return. *)
Definition foo_branches_and_pgo : Function :=
  annotated "foo" (mkProfilingFlags false true false true) [returning_block].

Definition foo_pgo_only : Function :=
  annotated "foo" (mkProfilingFlags false false false true) [returning_block].

(** Four blocks: the entry jumps to block 1, block 1 branches on the
    value [%5] to block 2 or block 3, and these two return. *)
Definition jump_then_branch : list BasicBlock :=
  [ mkBasicBlock (Block 0) [OtherInst "add"] (mkTerminator (Br (Block 1)) None);
    mkBasicBlock (Block 1) [OtherInst "icmp"]
      (mkTerminator (CondBr (VReg (Numbered 5)) (Block 2) (Block 3)) None);
    mkBasicBlock (Block 2) [] ret;
    mkBasicBlock (Block 3) [] ret ].

Definition foo_branches_only : Function :=
  annotated "foo" (mkProfilingFlags false true false false) jump_then_branch.

(** [foo] annotated for calls, with a reporter: threshold 2, callback at
    address 4096, one argument. *)
Definition foo_with_reporter : Function :=
  mkFunction "foo"
    {[ "julia.prof" := toMDNode (mkProfilingFlags false false true false);
       "julia.prof.reporter" :=
         MDTuple [ ConstantAsMetadata (ConstantInt 64 2);
                   ConstantAsMetadata (ConstantInt 64 4096);
                   ConstantAsMetadata (ConstantInt 32 7) ] ]}
    [returning_block].

Definition foo_report : Event :=
  Called (ConstantInt 64 4096) [VConst (ConstantInt 32 7)].

(** The counter of [foo] in a store, if [foo] has a profile there. *)
Definition foo_calls (mem : ProfileStore) : option Z :=
  CallCount <$> mem !! "foo".

(** [foo] was called 10 times and its
    one conditional branch, in block 1 of 3, was taken 3 times out of 10. *)
Definition foo_after_ten_calls : FunctionProfile :=
  mkFunctionProfile 10 (AllocInfo.mk 0 0) (AllocInfo.mk 0 0)
    [None; Some (BranchInfo.mk 3 10); None] 0 3 12.

(** ** Notions used to state what the instrumentation keeps *)

(** The calls the allocation instrumentation counts, and whether a call
    has the operand it takes the size from. *)
Definition matchingCall (Preopt_ : bool) (CI : Instruction) : bool :=
  match CI with
  | CallInst (Direct Name) _ => isAllocCall Preopt_ Name
  | _ => false
  end.

Definition hasSizeOperand (CI : Instruction) : bool :=
  match CI with
  | CallInst _ args => bool_decide (2 ≤ length args)%nat
  | _ => false
  end.


(** [BB'] is [BB] with instructions put in: it has the identity and the
    terminator kind (with its targets) of [BB], and the instructions of
    [BB] in their order among its own. *)
Definition keepsBlock (BB BB' : BasicBlock) : Prop :=
  bb_label BB' = bb_label BB /\
  term_kind (bb_term BB') = term_kind (bb_term BB) /\
  bb_insts BB `sublist_of` bb_insts BB'.

(** [BB'] is [BB] with the allocation counters put in: nothing of [BB] is
    changed or moved, and three instructions are added per counted call. *)
Definition withAllocCounters (Preopt_ : bool) (BB BB' : BasicBlock) : Prop :=
  bb_label BB' = bb_label BB /\
  bb_term BB' = bb_term BB /\
  bb_insts BB `sublist_of` bb_insts BB' /\
  length (bb_insts BB')
  = (length (bb_insts BB)
     + 3 * length (filter (fun CI => matchingCall Preopt_ CI = true) (bb_insts BB)))%nat.

(** A block that allocates twice, once through the entry point known
    before optimization and once through a lowered allocator. *)
Definition allocating_block : BasicBlock :=
  mkBasicBlock (Block 0)
    [ CallInst (Direct "julia.gc_alloc_obj") [VArg 0; i64 16; VArg 1];
      OtherInst "store";
      CallInst (Direct "ijl_gc_pool_alloc") [VArg 0; i64 1400; i64 32] ]
    ret.

Definition foo_allocating : Function :=
  annotated "foo" (mkProfilingFlags true false false false)
    [allocating_block; returning_block].

(** The blocks over which the loop of [addBranchInstrumentation] takes
    its [continue]: those that end in an unconditional branch or in a
    branch on a constant. *)
Definition endsInSkippedBranch (BB : BasicBlock) : bool :=
  match term_kind (bb_term BB) with
  | Br _ => true
  | CondBr (VConst _) _ _ => true
  | _ => false
  end.

(** [BB'] is [BB] with the branch counters put in: a block that ends in a
    branch on a value that is not a constant has the three instructions
    of some slot at its end, in front of the branch; any other block is
    as it was. *)
Definition withBranchCounters (fn : string) (BB BB' : BasicBlock) : Prop :=
  bb_label BB' = bb_label BB /\
  bb_term BB' = bb_term BB /\
  match term_kind (bb_term BB) with
  | CondBr (VConst _) _ _ => bb_insts BB' = bb_insts BB
  | CondBr Cond _ _ =>
      exists BBidx : nat, bb_insts BB' = bb_insts BB ++ branchCounters fn BBidx Cond
  | _ => bb_insts BB' = bb_insts BB
  end.

(** The slot vector and the block count agree as the assertion of
    [addBranchInstrumentation] wants them to: the vector is still empty
    (and is sized now) or has one slot per block. *)
Definition slotsFit (Prof : FunctionProfile) (F : Function) : Prop :=
  BranchProfiles Prof = [] \/
  length (BranchProfiles Prof) = length (blocks F).

(** What the branch instrumentation is to do with the block at position
    [k] when the slot it takes is slot [k]. *)
Definition instrumentedAt (fn : string) (k : nat) (BB : BasicBlock)
    : option BranchInfo.t * BasicBlock :=
  match term_kind (bb_term BB) with
  | CondBr (VConst _) _ _ => (None, BB)
  | CondBr Cond _ _ => (Some (BranchInfo.mk 0 0), instrumentBranch fn k Cond BB)
  | _ => (None, BB)
  end.

(** The block [BB] with the weights of the counters [B] on its
    terminator when [B] saw the branch at least once. *)
Definition withBranchWeights (B : BranchInfo.t) (BB : BasicBlock) : BasicBlock :=
  if 0 <? BranchInfo.Total B
  then set_term_prof
         (createBranchWeights (BranchInfo.Taken B)
            (wrap64 (BranchInfo.Total B - BranchInfo.Taken B))) BB
  else BB.

(** The profile the factory of the pre-optimization pass builds for [F]:
    counters at zero, no slots, and the three counts taken from [F]. *)
Definition profileAtCreation (LoopCount : Function -> Z) (F : Function)
    : FunctionProfile :=
  mkFunctionProfile 0 (AllocInfo.mk 0 0) (AllocInfo.mk 0 0) []
    (LoopCount F) (Z.of_nat (length (blocks F))) (countInsts F).

(** [F'] starts with the threshold check for the counter of [fn]: a head
    block that adds one to the counter, compares the value the add
    yields with [T] and branches, and a block that calls [fp] with
    [Args] and goes on to the tail. *)
Definition hasThresholdCheck (F' : Function) (fn : string) (T : Z)
    (fp : Constant) (Args : list Value) : Prop :=
  exists (l0 : label) (Weights : MDNode) (others : list BasicBlock),
    blocks F'
    = mkBasicBlock l0
        [ AtomicRMWAdd (Some CallCountReg) (counterPtr fn CallCountCell) (i64 1);
          ICmpEQ ReportReg (VReg CallCountReg) (VConst (ConstantInt 64 T)) ]
        (mkTerminator (CondBr (VReg ReportReg) (ThenOf l0) (TailOf l0)) (Some Weights))
      :: mkBasicBlock (ThenOf l0) [CallInst (Indirect (VConst (IntToPtr fp))) Args]
           (mkTerminator (Br (TailOf l0)) None)
      :: others.

(** [foo] annotated for calls and allocations, with the reporter of
    [foo_with_reporter], and a block that allocates. *)
Definition foo_with_reporter_allocating : Function :=
  mkFunction "foo"
    {[ "julia.prof" := toMDNode (mkProfilingFlags true false true false);
       "julia.prof.reporter" :=
         MDTuple [ ConstantAsMetadata (ConstantInt 64 2);
                   ConstantAsMetadata (ConstantInt 64 4096);
                   ConstantAsMetadata (ConstantInt 32 7) ] ]}
    [allocating_block; returning_block].

(** The instructions of a function, terminators included. *)
Definition instructionCount (F : Function) : Z :=
  Z.of_nat (length (concat (map bb_insts (blocks F))) + length (blocks F)).

(** [foo] annotated for calls only. *)
Definition foo_calls_only : Function :=
  annotated "foo" (mkProfilingFlags false false true false) [returning_block].

(** * Properties *)

(** ** Flag resolution *)

Lemma fromMDNode_toMDNode (Flags : ProfilingFlags) :
  fromMDNode (toMDNode Flags) = Ok Flags.
Proof. by destruct Flags as [[] [] [] []]. Qed.

Lemma fromMDNode_ints (wa wb wc wd : N) (a b c d : Z) :
  a < u64_modulus -> b < u64_modulus -> c < u64_modulus -> d < u64_modulus ->
  fromMDNode (MDTuple [ConstantAsMetadata (ConstantInt wa a);
                       ConstantAsMetadata (ConstantInt wb b);
                       ConstantAsMetadata (ConstantInt wc c);
                       ConstantAsMetadata (ConstantInt wd d)])
  = Ok (mkProfilingFlags (nonzero a) (nonzero b) (nonzero c) (nonzero d)).
Proof.
  intros Ha Hb Hc Hd.
  apply Z.ltb_lt in Ha, Hb, Hc, Hd.
  cbv [fromMDNode castMDTuple getNumOperands length Nat.eqb assert mbind
       result_bind extractProfNum getOperand getZExtValue lookup list_lookup
       fst snd].
  by rewrite Ha, Hb, Hc, Hd.
Qed.

Lemma fromFunction_annotated (sw : ForceSwitches) (F : Function) (MD : MDNode) :
  getMetadata F !! "julia.prof" = Some MD -> fromFunction sw F = fromMDNode MD.
Proof. intros H. unfold fromFunction. by rewrite H. Qed.

Lemma fromFunction_unannotated (sw : ForceSwitches) (F : Function) :
  getMetadata F !! "julia.prof" = None ->
  fromFunction sw F
  = Ok (mkProfilingFlags (ForceProfileAllocations sw) (ForceProfileBranches sw)
          (ForceProfileCalls sw) false).
Proof. intros H. unfold fromFunction. by rewrite H. Qed.

(** C4.  Flag resolution follows the priority order.  With an annotation
    present the flags are the four operands of the tuple read in the
    order allocations, branches, calls, PGO (whether written as four
    booleans or as four integers that fit 64 bits, nonzero meaning set), and the result is the same under any two settings of the force
    switches.  Without an annotation the flags are all-false ORed with
    force-allocations, force-branches and force-calls, and ApplyPGO is
    false whatever the switches say. *)
Theorem flag_resolution_priority (sw : ForceSwitches) (F : Function) :
  (forall Flags : ProfilingFlags,
      getMetadata F !! "julia.prof" = Some (toMDNode Flags) ->
      fromFunction sw F = Ok Flags) /\
  (forall (wa wb wc wd : N) (a b c d : Z),
      a < u64_modulus -> b < u64_modulus -> c < u64_modulus -> d < u64_modulus ->
      getMetadata F !! "julia.prof"
        = Some (MDTuple [ConstantAsMetadata (ConstantInt wa a);
                         ConstantAsMetadata (ConstantInt wb b);
                         ConstantAsMetadata (ConstantInt wc c);
                         ConstantAsMetadata (ConstantInt wd d)]) ->
      fromFunction sw F
        = Ok (mkProfilingFlags (nonzero a) (nonzero b) (nonzero c) (nonzero d))) /\
  (forall (MD : MDNode) (sw' : ForceSwitches),
      getMetadata F !! "julia.prof" = Some MD ->
      fromFunction sw F = fromFunction sw' F) /\
  (getMetadata F !! "julia.prof" = None ->
      fromFunction sw F
        = Ok (mkProfilingFlags
                (false || ForceProfileAllocations sw)
                (false || ForceProfileBranches sw)
                (false || ForceProfileCalls sw)
                false)).
Proof.
  repeat split.
  - intros Flags H. rewrite (fromFunction_annotated _ _ _ H).
    apply fromMDNode_toMDNode.
  - intros wa wb wc wd a b c d Ha Hb Hc Hd H.
    rewrite (fromFunction_annotated _ _ _ H). by apply fromMDNode_ints.
  - intros MD sw' H. by rewrite !(fromFunction_annotated _ _ _ H).
  - intros H. by rewrite fromFunction_unannotated.
Qed.

(** The annotation [allocations = false, branches = true, calls = true,
    PGO = false] wins over switches that are all on; with no annotation
    the same switches give everything but PGO. *)
Lemma flag_resolution_priority_witness :
  fromFunction switches_on
    (annotated "foo" (mkProfilingFlags false true true false) [returning_block])
    = Ok (mkProfilingFlags false true true false) /\
  fromFunction switches_on (mkFunction "foo" ∅ [returning_block])
    = Ok (mkProfilingFlags true true true false).
Proof.
  split.
  - apply (proj1 (flag_resolution_priority switches_on
      (annotated "foo" (mkProfilingFlags false true true false) [returning_block]))).
    reflexivity.
  - apply (proj2 (proj2 (proj2 (flag_resolution_priority switches_on
      (mkFunction "foo" ∅ [returning_block]))))).
    reflexivity.
Defined.

(** ** The early returns of the two passes *)

(** C10.  With a null [JITProf] both passes return at once, before the
    flags are even resolved: whatever the function, its annotation and
    the force switches, all analyses are reported preserved, the function
    is the one given and there is still no store. *)
Theorem null_store_is_a_no_op (sw : ForceSwitches) (LoopCount : Function -> Z)
    (F : Function) :
  JITPreoptimizationProfiler_run sw LoopCount None F
    = Ok (PreservedAnalyses.all, F, None) /\
  JITPostoptimizationProfiler_run sw None F
    = Ok (PreservedAnalyses.all, F, None).
Proof. split; reflexivity. Qed.

(** C7.  When the resolved flags request none of branches, allocations
    and apply-PGO, the pre-optimization pass reports all analyses
    preserved and leaves the function and the store as they were: no
    profile is created, whether or not a store exists. *)
Theorem preopt_no_op_when_nothing_requested (sw : ForceSwitches)
    (LoopCount : Function -> Z) (JITProf : option ProfileStore)
    (F : Function) (Flags : ProfilingFlags) :
  fromFunction sw F = Ok Flags ->
  ProfileBranches Flags = false ->
  ProfileAllocations Flags = false ->
  ApplyPGO Flags = false ->
  JITPreoptimizationProfiler_run sw LoopCount JITProf F
    = Ok (PreservedAnalyses.all, F, JITProf).
Proof.
  intros HF Hb Ha Hp. unfold JITPreoptimizationProfiler_run.
  destruct JITProf as [st|]; [|reflexivity].
  rewrite HF. cbn. by rewrite Hb, Ha, Hp.
Qed.

(** A function that was never annotated, with every switch off and an
    empty store: nothing happens, the store stays empty. *)
Lemma preopt_no_op_when_nothing_requested_witness :
  JITPreoptimizationProfiler_run switches_off no_loops (Some ∅)
    (mkFunction "foo" ∅ [returning_block])
  = Ok (PreservedAnalyses.all, mkFunction "foo" ∅ [returning_block], Some ∅).
Proof.
  apply (preopt_no_op_when_nothing_requested switches_off no_loops (Some ∅)
           (mkFunction "foo" ∅ [returning_block])
           (mkProfilingFlags false false false false));
    reflexivity.
Defined.

Lemma postopt_keeps_store (sw : ForceSwitches) (JITProf : option ProfileStore)
    (F : Function) (r : PassResult) :
  JITPostoptimizationProfiler_run sw JITProf F = Ok r -> r.2 = JITProf.
Proof.
  unfold JITPostoptimizationProfiler_run.
  destruct JITProf as [st|]; [|by intros [= <-]].
  destruct (fromFunction sw F) as [Flags|]; [cbn|done].
  destruct (_ && _); [by intros [= <-]|].
  destruct (getProfile st (getName F)) as [Prof|]; [|by intros [= <-]].
  destruct (if ProfileCalls Flags then _ else _) as [F1|]; [cbn|done].
  destruct (if ProfileAllocations Flags then _ else _) as [F2|]; [cbn|done].
  by intros [= <-].
Qed.

(** C6.  The post-optimization pass never creates a profile.  Whatever it
    returns, the store is the one it was given; and for a function whose
    name has no profile ([getProfile] answers [None], it has no failure
    case) the pass reports all analyses preserved and returns the
    function unchanged. *)
Theorem postopt_never_creates_a_profile (sw : ForceSwitches)
    (FunctionProfiles : ProfileStore) (F : Function) (Flags : ProfilingFlags) :
  fromFunction sw F = Ok Flags ->
  getProfile FunctionProfiles (getName F) = None ->
  JITPostoptimizationProfiler_run sw (Some FunctionProfiles) F
    = Ok (PreservedAnalyses.all, F, Some FunctionProfiles) /\
  (forall (F0 : Function) (r : PassResult),
      JITPostoptimizationProfiler_run sw (Some FunctionProfiles) F0 = Ok r ->
      r.2 = Some FunctionProfiles).
Proof.
  intros HF HP. split.
  - unfold JITPostoptimizationProfiler_run. rewrite HF. cbn.
    rewrite HP. by destruct (_ && _).
  - intros F0 r. apply postopt_keeps_store.
Qed.

(** Calls and allocations are requested for [foo], the store only knows
    [bar]: nothing is done and [foo] gets no profile. *)
Lemma postopt_never_creates_a_profile_witness :
  JITPostoptimizationProfiler_run switches_off
    (Some {[ "bar" := make_unique_FunctionProfile ]})
    (annotated "foo" (mkProfilingFlags true false true false) [returning_block])
  = Ok (PreservedAnalyses.all,
        annotated "foo" (mkProfilingFlags true false true false) [returning_block],
        Some {[ "bar" := make_unique_FunctionProfile ]}).
Proof.
  apply (postopt_never_creates_a_profile switches_off
           {[ "bar" := make_unique_FunctionProfile ]}
           (annotated "foo" (mkProfilingFlags true false true false) [returning_block])
           (mkProfilingFlags true false true false));
    reflexivity.
Defined.

(** ** What the post-optimization pass reports *)

(** C3, as stated, fails: [foo] is annotated for allocations only, has a
    profile and calls no allocator.  The pass adds nothing, no threshold
    check and no counter, and still reports that analyses are not
    preserved. *)
Lemma postopt_reports_none_though_nothing_was_added :
  JITPostoptimizationProfiler_run switches_off (Some store_with_foo)
    foo_allocations_only
  = Ok (PreservedAnalyses.none, foo_allocations_only, Some store_with_foo).
Proof. reflexivity. Qed.

(** C3, amended.  The post-optimization pass reports that analyses are
    not preserved exactly when it gets past its three early returns: there
    is a store, the flags request calls or allocations, and the function
    has a profile; what it then adds to the function, if anything, plays
    no part.  When it reports full preservation the function is the one
    it was given. *)
Theorem postopt_reports_none_iff_instrumentation_stage_reached
    (sw : ForceSwitches) (JITProf : option ProfileStore) (F F' : Function)
    (PA : PreservedAnalyses.t) (JITProf' : option ProfileStore) :
  JITPostoptimizationProfiler_run sw JITProf F = Ok (PA, F', JITProf') ->
  (PA = PreservedAnalyses.none <->
     exists (FunctionProfiles : ProfileStore) (Flags : ProfilingFlags)
            (Prof : FunctionProfile),
       JITProf = Some FunctionProfiles /\
       fromFunction sw F = Ok Flags /\
       (ProfileAllocations Flags = true \/ ProfileCalls Flags = true) /\
       getProfile FunctionProfiles (getName F) = Some Prof) /\
  (PA = PreservedAnalyses.all -> F' = F).
Proof.
  unfold JITPostoptimizationProfiler_run.
  destruct JITProf as [st|].
  2:{ intros [= <- <- <-]. split; [|done].
      split; [done|]. by intros (? & ? & ? & ? & _). }
  destruct (fromFunction sw F) as [Flags|] eqn:HF; [cbn|done].
  destruct (negb (ProfileAllocations Flags) && negb (ProfileCalls Flags)) eqn:Hreq.
  { intros [= <- <- <-]. split; [|done]. split; [done|].
    intros (? & Flags' & ? & _ & [= <-] & Hor & _).
    apply andb_true_iff in Hreq as [Ha Hc].
    apply negb_true_iff in Ha, Hc. destruct Hor; congruence. }
  destruct (getProfile st (getName F)) as [Prof|] eqn:HP.
  2:{ intros [= <- <- <-]. split; [|done]. split; [done|].
      by intros (? & ? & ? & [= <-] & _ & _ & ?); simplify_eq. }
  destruct (if ProfileCalls Flags then _ else _) as [F1|]; [cbn|done].
  destruct (if ProfileAllocations Flags then _ else _) as [F2|]; [cbn|done].
  intros [= <- <- <-]. split; [|done]. split; [|done].
  intros _. exists st, Flags, Prof. repeat split; [|done].
  apply andb_false_iff in Hreq as [H|H]; apply negb_false_iff in H; auto.
Qed.

(** [foo] with its profile and the allocations-only annotation: the stage
    is reached, so the answer is [none]. *)
Lemma postopt_reports_none_iff_instrumentation_stage_reached_witness :
  PreservedAnalyses.none = PreservedAnalyses.none <->
  exists (FunctionProfiles : ProfileStore) (Flags : ProfilingFlags)
         (Prof : FunctionProfile),
    Some store_with_foo = Some FunctionProfiles /\
    fromFunction switches_off foo_allocations_only = Ok Flags /\
    (ProfileAllocations Flags = true \/ ProfileCalls Flags = true) /\
    getProfile FunctionProfiles (getName foo_allocations_only) = Some Prof.
Proof.
  apply (postopt_reports_none_iff_instrumentation_stage_reached switches_off
           (Some store_with_foo) foo_allocations_only foo_allocations_only
           PreservedAnalyses.none (Some store_with_foo)).
  reflexivity.
Defined.

(** ** Applying counts to a function with an unpopulated slot *)

(** C2: the code does not skip unpopulated slots.
    [applyPGOInstrumentation] takes slot [BBidx] for every block and reads
    through it with no test.  With branches and apply-PGO requested for a
    function whose only block returns, the slot of that block was left
    null by the branch instrumentation and is read through; with apply-PGO
    alone the slot sequence is empty and is indexed at 0. *)
Lemma applyPGO_reads_through_unpopulated_slots :
  JITPreoptimizationProfiler_run switches_off no_loops (Some ∅) foo_branches_and_pgo
    = Fault NullDeref /\
  JITPreoptimizationProfiler_run switches_off no_loops (Some ∅) foo_pgo_only
    = Fault OutOfBounds.
Proof. split; reflexivity. Qed.

(** ** Where the branch slots end up *)

(** C5: the slot is not at the block's index.  In [jump_then_branch] the
    only conditional branch ends block 1, but [BBidx] is not advanced over
    block 0, which ends in an unconditional branch: slot 0 is populated,
    slot 1 is not, and the counters put in front of the branch of block 1
    are those of slot 0. *)
Lemma branch_slot_is_not_at_the_block_index :
  exists (Prof : FunctionProfile) (B0 B1 B2 B3 : BasicBlock),
    addBranchInstrumentation make_unique_FunctionProfile foo_branches_only
      = Ok (Prof, set_blocks [B0; B1; B2; B3] foo_branches_only) /\
    BranchProfiles Prof = [Some (BranchInfo.mk 0 0); None; None; None] /\
    term_kind (bb_term B0) = Br (Block 1) /\
    term_kind (bb_term B1) = CondBr (VReg (Numbered 5)) (Block 2) (Block 3) /\
    bb_insts B1 =
      [ OtherInst "icmp";
        AtomicRMWAdd None (counterPtr "foo" (TotalCell 0)) (i64 1);
        ZExt64 (CondExtReg 0) (VReg (Numbered 5));
        AtomicRMWAdd None (counterPtr "foo" (TakenCell 0)) (VReg (CondExtReg 0)) ].
Proof. do 5 eexists. repeat split. Qed.

(** ** Dump *)

Lemma append_assoc (a b c : string) : (a +:+ b) +:+ c = a +:+ (b +:+ c).
Proof.
  induction a as [|x a IH]; [reflexivity|].
  change (String x ((a +:+ b) +:+ c) = String x (a +:+ (b +:+ c))).
  by rewrite IH.
Qed.

Lemma append_nil_r (a : string) : a +:+ "" = a.
Proof.
  induction a as [|x a IH]; [reflexivity|].
  change (String x (a +:+ "") = String x a). by rewrite IH.
Qed.

Lemma populated_from_lookup (Slots : list (option BranchInfo.t)) (Idx i : nat)
    (B : BranchInfo.t) :
  (i, B) ∈ populated_from Idx Slots <->
  (Idx ≤ i)%nat /\ Slots !! (i - Idx)%nat = Some (Some B).
Proof.
  revert Idx. induction Slots as [|[B'|] rest IH]; intros Idx; simpl.
  - rewrite elem_of_nil. split; [done|]. by intros [_ ?].
  - rewrite elem_of_cons, IH. split.
    + intros [Heq|[Hle Hl]].
      * simplify_eq. split; [lia|]. by rewrite Nat.sub_diag.
      * split; [lia|]. by replace (i - Idx)%nat with (S (i - S Idx)) by lia.
    + intros [Hle Hl]. destruct (decide (i = Idx)) as [->|Hne].
      * left. rewrite Nat.sub_diag in Hl. by simplify_eq/=.
      * right. split; [lia|].
        by replace (i - Idx)%nat with (S (i - S Idx)) in Hl by lia.
  - rewrite IH. split.
    + intros [Hle Hl]. split; [lia|].
      by replace (i - Idx)%nat with (S (i - S Idx)) by lia.
    + intros [Hle Hl]. destruct (decide (i = Idx)) as [->|Hne].
      * by rewrite Nat.sub_diag in Hl.
      * split; [lia|].
        by replace (i - Idx)%nat with (S (i - S Idx)) in Hl by lia.
Qed.

Lemma dump_branches_loop_report (Slots : list (option BranchInfo.t)) (Idx : nat)
    (Comma : bool) (OS : string) :
  dump_branches_loop Slots Idx Comma OS =
  match populated_from Idx Slots with
  | [] => (Comma, OS)
  | l => (true,
          OS +:+ (if Comma then "," else key "Branches" +:+ "[")
             +:+ String.concat "," (map report_branch l))
  end.
Proof.
  revert Idx Comma OS.
  induction Slots as [|[B|] rest IH]; intros Idx Comma OS; simpl; [done| |by apply IH].
  rewrite IH. destruct (populated_from (S Idx) rest) as [|IB l].
  - f_equal. unfold report_branch. cbn [fst snd map String.concat].
    destruct Comma; by rewrite !append_assoc.
  - change (map report_branch (IB :: l))
      with (report_branch IB :: map report_branch l).
    cbv iota. f_equal. unfold report_branch. cbn [fst snd].
    destruct Comma; by rewrite !append_assoc.
Qed.

Lemma dump_branches_report (Slots : list (option BranchInfo.t)) (OS : string) :
  dump_branches Slots OS =
  OS +:+ optional (has_populated Slots)
           (key "Branches" +:+ "["
              +:+ String.concat "," (map report_branch (populated Slots)) +:+ "],").
Proof.
  unfold dump_branches, has_populated, populated.
  destruct Slots as [|o rest]; [by rewrite append_nil_r|].
  rewrite dump_branches_loop_report.
  destruct (populated_from 0 (o :: rest)); cbn [optional].
  - by rewrite append_nil_r.
  - by rewrite !append_assoc.
Qed.

Lemma dump_profile_report (Name : string) (P : FunctionProfile) (OS : string) :
  dump_profile Name P OS = OS +:+ report_profile (Name, P).
Proof.
  unfold dump_profile, report_profile, report_alloc. cbn [fst snd].
  rewrite dump_branches_report.
  destruct (nonzero (CallCount P)),
    (nonzero (AllocInfo.Count (Preopt P)) || nonzero (AllocInfo.Count (Postopt P))),
    (has_populated (BranchProfiles P)), (nonzero (Loops P));
    cbn [optional]; by rewrite !append_assoc.
Qed.

Lemma dump_loop_report (KVs : list (string * FunctionProfile)) (OS : string) :
  dump_loop KVs (length KVs) OS
  = OS +:+ String.concat "," (map report_profile KVs).
Proof.
  revert OS. induction KVs as [|[Name P] rest IH]; intros OS.
  - by rewrite append_nil_r.
  - cbn [dump_loop length Nat.pred fst snd]. rewrite dump_profile_report.
    destruct rest as [|KV rest]; [done|].
    change (negb (length (KV :: rest) =? 0)%nat) with true. cbv iota.
    rewrite IH. by rewrite !append_assoc.
Qed.

Lemma dump_report (FunctionProfiles : ProfileStore) (OS : string) :
  dump FunctionProfiles OS = OS +:+ report FunctionProfiles.
Proof.
  unfold dump, report. rewrite <- length_map_to_list, dump_loop_report.
  by rewrite !append_assoc.
Qed.

(** C8.  What [dump] appends to the stream is the report of the store:
    an object per profile, in which Name, BBs and Insts are always
    present, Calls is present iff CallCount is nonzero, the Allocs pair
    iff the Preopt or the Postopt Count is nonzero, Loops iff nonzero,
    and Branches iff some slot is populated, listing [Idx], [Taken] and
    [Total] of the populated slots and of no other. *)
Theorem dump_renders_the_report (FunctionProfiles : ProfileStore) (OS : string) :
  dump FunctionProfiles OS = OS +:+ report FunctionProfiles /\
  (forall (Slots : list (option BranchInfo.t)) (Idx : nat) (B : BranchInfo.t),
      (Idx, B) ∈ populated Slots <-> Slots !! Idx = Some (Some B)).
Proof.
  split; [apply dump_report|].
  intros Slots Idx B. unfold populated. rewrite populated_from_lookup.
  rewrite Nat.sub_0_r. split; [by intros [_ ?]|]. split; [lia|done].
Qed.

(** C9.  [dump] appends the same bytes whatever the stream already
    holds, so two invocations in a row on one store append the same bytes
    twice. *)
Theorem dump_twice_appends_the_same_bytes (FunctionProfiles : ProfileStore)
    (OS : string) :
  dump FunctionProfiles OS = OS +:+ dump FunctionProfiles "" /\
  dump FunctionProfiles (dump FunctionProfiles OS)
    = (OS +:+ dump FunctionProfiles "") +:+ dump FunctionProfiles "".
Proof.
  assert (forall OS', dump FunctionProfiles OS' = OS' +:+ dump FunctionProfiles "")
    as Happ.
  { intros OS'. by rewrite !dump_report. }
  split; [apply Happ|]. rewrite (Happ (dump _ _)). by rewrite (Happ OS).
Qed.

(** ** The threshold check at run time *)

Lemma label_neq_TailOf (l : label) : l ≠ TailOf l.
Proof. induction l; congruence. Qed.

Lemma label_neq_ThenOf (l : label) : l ≠ ThenOf l.
Proof. induction l; congruence. Qed.

Lemma getSExtValue_64 (v : Z) : getSExtValue (64%N, v) = Ok (signedValue (64%N, v)).
Proof.
  unfold getSExtValue.
  assert (- 2 ^ 63 ≤ signedValue (64%N, v) < 2 ^ 63) as [Hl Hu].
  { unfold signedValue. cbn [fst snd].
    change (2 ^ (Z.of_N 64 - 1)) with (2 ^ 63).
    pose proof (Z.mod_pos_bound (v + 2 ^ 63) (2 * 2 ^ 63)). lia. }
  apply Z.leb_le in Hl. apply Z.ltb_lt in Hu. by rewrite Hl, Hu.
Qed.

Lemma addCallInstrumentation_reporter (Prof : FunctionProfile) (F : Function)
    (Entry : BasicBlock) (Rest : list BasicBlock) (ReporterMD : list Metadata)
    (T : Z) (w : N) (fp : Z) (Args : list Value) :
  blocks F = Entry :: Rest ->
  getMetadata F !! "julia.prof.reporter" = Some (MDTuple ReporterMD) ->
  extractProfNum ReporterMD 0 = Ok (64%N, T) ->
  extractProfNum ReporterMD 1 = Ok (w, fp) ->
  collectArgs (drop 2 ReporterMD) = Ok Args ->
  exists Weights : MDNode,
    addCallInstrumentation Prof F
    = Ok (set_blocks
            (reporterEntry (getName F) Entry Weights T (ConstantInt w fp) Args ++ Rest)
            F).
Proof.
  intros HB HMD H0 H1 HA. unfold addCallInstrumentation.
  rewrite HB, HMD. cbn [castMDTuple mbind result_bind].
  assert (2 ≤ getNumOperands ReporterMD)%nat as Hlen.
  { unfold extractProfNum, getOperand in H1.
    destruct (ReporterMD !! 1%nat) eqn:Hl; [|done].
    apply lookup_lt_Some in Hl. unfold getNumOperands. lia. }
  rewrite (bool_decide_eq_true_2 _ Hlen). cbn [assert].
  rewrite H0. cbn [fst snd N.eqb Pos.eqb assert mbind result_bind].
  rewrite getSExtValue_64. cbn [mbind result_bind].
  rewrite HA, H1. cbn [fst snd]. eexists. reflexivity.
Qed.

Lemma exec_until_stop (fuel : nat) (F : Function) (stop : label) (m : Machine) :
  exec_until fuel F stop stop m = Some m.
Proof. destruct fuel; simpl; by rewrite decide_True. Qed.

Lemma exec_until_step (fuel : nat) (F : Function) (stop cur next : label)
    (BB : BasicBlock) (m m' : Machine) :
  cur ≠ stop ->
  findBlock F cur = Some BB ->
  exec_insts (bb_insts BB) m = Some m' ->
  successor (bb_term BB) m' = Some next ->
  exec_until (S fuel) F stop cur m = exec_until fuel F stop next m'.
Proof.
  intros Hne HB HI HS. simpl. rewrite decide_False by done.
  by rewrite HB; simpl; rewrite HI; simpl; rewrite HS.
Qed.

Lemma runEntry_reporterEntry (F : Function) (Entry : BasicBlock)
    (Rest : list BasicBlock) (Weights : MDNode) (T : Z) (fp : Constant)
    (Args : list Value) (mem : ProfileStore) (P : FunctionProfile) :
  mem !! getName F = Some P ->
  runEntry
    (set_blocks (reporterEntry (getName F) Entry Weights T fp Args ++ Rest) F) mem
  = Some (<[getName F := set_CallCount (wrap64 (CallCount P + 1)) P]> mem,
          if CallCount P =? T then [Called fp Args] else []).
Proof.
  intros HP. unfold runEntry, reporterEntry, SplitBlockAndInsertIfThen.
  cbn [set_blocks blocks app bb_label length].
  set (l0 := bb_label Entry).
  set (Head := mkBasicBlock l0 _ _).
  set (Then := mkBasicBlock (ThenOf l0) _ _).
  set (Tail := mkBasicBlock (TailOf l0) _ _).
  set (F' := set_blocks _ F).
  assert (findBlock F' l0 = Some Head) as HHead.
  { unfold findBlock. cbn. by rewrite bool_decide_eq_true_2. }
  assert (findBlock F' (ThenOf l0) = Some Then) as HThen.
  { unfold findBlock. cbn.
    rewrite bool_decide_eq_false_2 by apply label_neq_ThenOf.
    by rewrite bool_decide_eq_true_2. }
  set (mem1 := <[getName F := set_CallCount (wrap64 (CallCount P + 1)) P]> mem).
  set (env1 := setReg ReportReg (if CallCount P =? T then 1 else 0)
                 (setReg CallCountReg (CallCount P) (fun _ => None))).
  assert (exec_insts (bb_insts Head) (mkMachine mem (fun _ => None) [])
          = Some (mkMachine mem1 env1 [])) as HI.
  { cbn. rewrite HP. cbn. done. }
  destruct (Z.eqb_spec (CallCount P) T) as [HT|HT].
  - erewrite (exec_until_step _ F' _ _ (ThenOf l0) Head);
      [|apply label_neq_TailOf|exact HHead|exact HI|by cbn].
    erewrite (exec_until_step _ F' _ _ (TailOf l0) Then);
      [|done|exact HThen|by cbn|by cbn].
    by rewrite exec_until_stop.
  - erewrite (exec_until_step _ F' _ _ (TailOf l0) Head);
      [|apply label_neq_TailOf|exact HHead|exact HI|by cbn].
    by rewrite exec_until_stop.
Qed.

Lemma set_CallCount_twice (v v' : Z) (P : FunctionProfile) :
  set_CallCount v (set_CallCount v' P) = set_CallCount v P.
Proof. done. Qed.

Lemma wrap64_small (z : Z) : 0 ≤ z < u64_modulus -> wrap64 z = z.
Proof. intros H. by apply Z.mod_small. Qed.

Lemma wrap64_bound (z : Z) : 0 ≤ wrap64 z < u64_modulus.
Proof. by apply Z.mod_pos_bound. Qed.

Lemma runCalls_reporterEntry (F : Function) (Entry : BasicBlock)
    (Rest : list BasicBlock) (Weights : MDNode) (T : Z) (fp : Constant)
    (Args : list Value) (n : nat) (mem : ProfileStore) (P : FunctionProfile) :
  mem !! getName F = Some P ->
  0 ≤ CallCount P < u64_modulus ->
  CallCount P + Z.of_nat n ≤ u64_modulus ->
  exists mem' : ProfileStore,
    runCalls n
      (set_blocks (reporterEntry (getName F) Entry Weights T fp Args ++ Rest) F) mem
    = Some (mem', expectedReports T (Called fp Args) (CallCount P) n) /\
    mem' !! getName F
    = Some (set_CallCount (wrap64 (CallCount P + Z.of_nat n)) P).
Proof.
  revert mem P. induction n as [|n IH]; intros mem P HP Hc Hn.
  - exists mem. split; [done|]. rewrite HP. f_equal.
    rewrite Z.add_0_r, wrap64_small by done. by destruct P.
  - cbn [runCalls expectedReports]. rewrite (runEntry_reporterEntry _ _ _ _ _ _ _ _ _ HP).
    cbn [mbind option_bind].
    set (P1 := set_CallCount (wrap64 (CallCount P + 1)) P).
    set (mem1 := <[getName F := P1]> mem).
    assert (n = O \/ wrap64 (CallCount P + 1) = CallCount P + 1) as Hcase.
    { destruct n; [by left|right]. apply wrap64_small. lia. }
    destruct (IH mem1 P1) as (mem' & Hrun & Hlook).
    + apply lookup_insert_eq.
    + apply wrap64_bound.
    + cbn [P1 set_CallCount CallCount].
      destruct Hcase as [-> | ->]; [|lia].
      pose proof (wrap64_bound (CallCount P + 1)). lia.
    + exists mem'. rewrite Hrun. cbn [mbind option_bind]. split.
      * do 3 f_equal. cbn [P1 set_CallCount CallCount].
        destruct Hcase as [-> | ->]; done.
      * rewrite Hlook. f_equal. unfold P1 at 2. rewrite set_CallCount_twice.
        f_equal. cbn [P1 set_CallCount CallCount].
        unfold wrap64. rewrite Zplus_mod_idemp_l. f_equal. lia.
Qed.

Lemma length_expectedReports (T : Z) (e : Event) (c : Z) (n : nat) :
  length (expectedReports T e c n) = n.
Proof. revert c. induction n as [|n IH]; intros c; simpl; by rewrite ?IH. Qed.

Lemma lookup_expectedReports (T : Z) (e : Event) (c : Z) (n k : nat) :
  (k < n)%nat ->
  expectedReports T e c n !! k = Some (if c + Z.of_nat k =? T then [e] else []).
Proof.
  revert c k. induction n as [|n IH]; intros c k Hk; [lia|].
  destruct k as [|k]; simpl.
  - by rewrite Z.add_0_r.
  - rewrite IH by lia.
    by replace (c + 1 + Z.of_nat k) with (c + Z.of_nat (S k)) by lia.
Qed.

Lemma reporting_expectedReports (T : Z) (e : Event) (c : Z) (n : nat) :
  reporting (expectedReports T e c n)
  = if bool_decide (c ≤ T < c + Z.of_nat n) then 1%nat else 0%nat.
Proof.
  revert c. induction n as [|n IH]; intros c.
  - rewrite bool_decide_eq_false_2 by lia. done.
  - unfold reporting in *. cbn [expectedReports]. rewrite filter_cons.
    destruct (Z.eqb_spec c T) as [->|Hne].
    + rewrite decide_True by done. cbn [length]. rewrite IH.
      rewrite bool_decide_eq_false_2 by lia.
      by rewrite bool_decide_eq_true_2 by lia.
    + rewrite decide_False by (by intros []). rewrite IH.
      by rewrite (bool_decide_ext (c + 1 ≤ T < c + 1 + Z.of_nat n)
                    (c ≤ T < c + Z.of_nat (S n))) by lia.
Qed.

(** C1, as stated, fails: the check does not compare the incremented
    count.  [foo] has threshold 2 and its counter starts at 0.  The second
    call brings the counter to 2 and reports nothing; the callback is
    called by the third call, which finds 2 and leaves 3. *)
Lemma reporter_is_silent_when_the_count_reaches_the_threshold :
  exists F' : Function,
    addCallInstrumentation make_unique_FunctionProfile foo_with_reporter = Ok F' /\
    prod_map foo_calls id <$> runCalls 2 F' store_with_foo
      = Some (Some 2, [[]; []]) /\
    prod_map foo_calls id <$> runCalls 3 F' store_with_foo
      = Some (Some 3, [[]; []; [foo_report]]).
Proof. eexists. split; [reflexivity|]. split; vm_compute; reflexivity. Qed.

(** C1, amended.  For a function with a reporter annotation of threshold
    [T], the check injected by the call instrumentation compares [T] with
    the value the atomic add yields, which is the call count from before
    the increment.  Over [n] successive calls that start with the counter
    at [c] and do not wrap it, call number [k] (from 0) invokes the
    callback with the annotation's arguments iff [c + k = T], that is iff
    it takes the counter from [T] to [T + 1], and is silent otherwise; so
    exactly one call reports when [c ≤ T < c + n] and none does
    otherwise. *)
Theorem reporter_fires_on_the_call_that_finds_the_threshold
    (Prof : FunctionProfile) (F : Function) (ReporterMD : list Metadata)
    (T : Z) (w : N) (fp : Z) (Args : list Value) :
  blocks F ≠ [] ->
  getMetadata F !! "julia.prof.reporter" = Some (MDTuple ReporterMD) ->
  extractProfNum ReporterMD 0 = Ok (64%N, T) ->
  extractProfNum ReporterMD 1 = Ok (w, fp) ->
  collectArgs (drop 2 ReporterMD) = Ok Args ->
  exists F' : Function,
    addCallInstrumentation Prof F = Ok F' /\
    forall (mem : ProfileStore) (P : FunctionProfile) (n : nat),
      mem !! getName F = Some P ->
      0 ≤ CallCount P < u64_modulus ->
      CallCount P + Z.of_nat n ≤ u64_modulus ->
      exists (mem' : ProfileStore) (fired : list (list Event)),
        runCalls n F' mem = Some (mem', fired) /\
        CallCount <$> mem' !! getName F
          = Some (wrap64 (CallCount P + Z.of_nat n)) /\
        length fired = n /\
        (forall k : nat, (k < n)%nat ->
           fired !! k
           = Some (if CallCount P + Z.of_nat k =? T
                   then [Called (ConstantInt w fp) Args] else [])) /\
        reporting fired
          = if bool_decide (CallCount P ≤ T < CallCount P + Z.of_nat n)
            then 1%nat else 0%nat.
Proof.
  intros HB HMD H0 H1 HA.
  destruct (blocks F) as [|Entry Rest] eqn:HBs; [done|].
  destruct (addCallInstrumentation_reporter Prof F Entry Rest ReporterMD T w fp
              Args HBs HMD H0 H1 HA) as [Weights HF'].
  eexists. split; [exact HF'|].
  intros mem P n HP Hc Hn.
  destruct (runCalls_reporterEntry F Entry Rest Weights T (ConstantInt w fp)
              Args n mem P HP Hc Hn) as (mem' & Hrun & Hlook).
  exists mem', (expectedReports T (Called (ConstantInt w fp) Args) (CallCount P) n).
  split; [exact Hrun|]. split; [by rewrite Hlook|].
  split; [apply length_expectedReports|].
  split; [intros k Hk; by apply lookup_expectedReports|].
  apply reporting_expectedReports.
Qed.

(** [foo] with threshold 2: instrumenting it succeeds and its calls
    report as stated. *)
Lemma reporter_fires_on_the_call_that_finds_the_threshold_witness :
  exists F' : Function,
    addCallInstrumentation make_unique_FunctionProfile foo_with_reporter = Ok F' /\
    forall (mem : ProfileStore) (P : FunctionProfile) (n : nat),
      mem !! getName foo_with_reporter = Some P ->
      0 ≤ CallCount P < u64_modulus ->
      CallCount P + Z.of_nat n ≤ u64_modulus ->
      exists (mem' : ProfileStore) (fired : list (list Event)),
        runCalls n F' mem = Some (mem', fired) /\
        CallCount <$> mem' !! getName foo_with_reporter
          = Some (wrap64 (CallCount P + Z.of_nat n)) /\
        length fired = n /\
        (forall k : nat, (k < n)%nat ->
           fired !! k
           = Some (if CallCount P + Z.of_nat k =? 2
                   then [Called (ConstantInt 64 4096) [VConst (ConstantInt 32 7)]]
                   else [])) /\
        reporting fired
          = if bool_decide (CallCount P ≤ 2 < CallCount P + Z.of_nat n)
            then 1%nat else 0%nat.
Proof.
  apply (reporter_fires_on_the_call_that_finds_the_threshold
           make_unique_FunctionProfile foo_with_reporter
           [ ConstantAsMetadata (ConstantInt 64 2);
             ConstantAsMetadata (ConstantInt 64 4096);
             ConstantAsMetadata (ConstantInt 32 7) ]
           2 64%N 4096 [VConst (ConstantInt 32 7)]);
    [discriminate|reflexivity..].
Defined.

(** ** Further properties *)

(** The report of the scenario above: one object with Name, Calls, the
    one populated branch slot, BBs and Insts; no Allocs and no Loops. *)
Example dump_foo_after_ten_calls :
  dump {[ "foo" := foo_after_ten_calls ]} ""
  = "[{" +:+ key "Name" +:+ dq +:+ "foo" +:+ dq +:+ ","
         +:+ key "Calls" +:+ "10,"
         +:+ key "Branches" +:+ "[{" +:+ key "Idx" +:+ "1,"
                                     +:+ key "Taken" +:+ "3,"
                                     +:+ key "Total" +:+ "10}],"
         +:+ key "BBs" +:+ "3," +:+ key "Insts" +:+ "12}]" +:+ nl.
Proof. reflexivity. Qed.



(** X2.  [getOrCreateProfile] returns the profile stored under the name
    and leaves the store alone when there is one, so two requests for one
    name share a record; otherwise it stores what the factory makes.
    Either way the name has that profile afterwards and no other name is
    touched. *)
Theorem getOrCreateProfile_fetches_or_inserts (FunctionProfiles : ProfileStore)
    (Name : string) (Create : unit -> FunctionProfile) :
  (forall Prof : FunctionProfile,
      getProfile FunctionProfiles Name = Some Prof ->
      getOrCreateProfile FunctionProfiles Name Create = (Prof, FunctionProfiles)) /\
  (getProfile FunctionProfiles Name = None ->
      getOrCreateProfile FunctionProfiles Name Create
      = (Create tt, <[Name := Create tt]> FunctionProfiles)) /\
  getProfile (getOrCreateProfile FunctionProfiles Name Create).2 Name
    = Some (getOrCreateProfile FunctionProfiles Name Create).1 /\
  (forall Other : string,
      Other ≠ Name ->
      getProfile (getOrCreateProfile FunctionProfiles Name Create).2 Other
      = getProfile FunctionProfiles Other).
Proof.
  unfold getOrCreateProfile, getProfile.
  destruct (FunctionProfiles !! Name) as [Prof|] eqn:HP; cbn [fst snd].
  - repeat split; [by intros ? [= <-]|done|done].
  - repeat split; [done|apply lookup_insert_eq|].
    intros Other Hne. by apply lookup_insert_ne.
Qed.

(** X3.  The pre-optimization pass answers [none] exactly when it gets
    past its two early returns: there is a store and the flags request
    branches, allocations or apply-PGO.  The function then has a profile
    in the store.  When the answer is [all] the function and the store
    are the ones given. *)
Theorem preopt_reports_none_iff_instrumentation_stage_reached
    (sw : ForceSwitches) (LoopCount : Function -> Z)
    (JITProf : option ProfileStore) (F F' : Function)
    (PA : PreservedAnalyses.t) (JITProf' : option ProfileStore) :
  JITPreoptimizationProfiler_run sw LoopCount JITProf F = Ok (PA, F', JITProf') ->
  (PA = PreservedAnalyses.none <->
     exists (FunctionProfiles : ProfileStore) (Flags : ProfilingFlags),
       JITProf = Some FunctionProfiles /\
       fromFunction sw F = Ok Flags /\
       (ProfileBranches Flags = true \/ ProfileAllocations Flags = true
        \/ ApplyPGO Flags = true)) /\
  (PA = PreservedAnalyses.none ->
     exists FunctionProfiles' : ProfileStore,
       JITProf' = Some FunctionProfiles' /\
       is_Some (getProfile FunctionProfiles' (getName F))) /\
  (PA = PreservedAnalyses.all -> F' = F /\ JITProf' = JITProf).
Proof.
  unfold JITPreoptimizationProfiler_run.
  destruct JITProf as [st|].
  2:{ intros [= <- <- <-]. repeat split; try done. by intros (? & ? & ? & _). }
  destruct (fromFunction sw F) as [Flags|] eqn:HF; [cbn|done].
  destruct (negb (ProfileBranches Flags) && negb (ProfileAllocations Flags)
            && negb (ApplyPGO Flags)) eqn:Hreq.
  { intros [= <- <- <-]. repeat split; try done.
    intros (? & Flags' & _ & [= <-] & Hor).
    apply andb_true_iff in Hreq as [Hreq Hp].
    apply andb_true_iff in Hreq as [Hb Ha].
    apply negb_true_iff in Hb, Ha, Hp. destruct Hor as [|[|]]; congruence. }
  destruct (getOrCreateProfile st (getName F) _) as [Prof st1].
  destruct (if ProfileBranches Flags then _ else _) as [[Prof1 F1]|]; [cbn|done].
  destruct (if ProfileAllocations Flags then _ else _) as [F2|]; [cbn|done].
  destruct (if ApplyPGO Flags then _ else _) as [F3|]; [cbn|done].
  intros [= <- <- <-]. repeat split; try done.
  - intros _. exists st, Flags. repeat split.
    apply andb_false_iff in Hreq as [Hreq|H].
    + apply andb_false_iff in Hreq as [H|H]; apply negb_false_iff in H; auto.
    + apply negb_false_iff in H; auto.
  - intros _. eexists. split; [done|]. unfold getProfile.
    rewrite lookup_insert_eq. by eexists.
Qed.

Lemma preopt_reports_none_iff_instrumentation_stage_reached_witness :
  PreservedAnalyses.none = PreservedAnalyses.none <->
  exists (FunctionProfiles : ProfileStore) (Flags : ProfilingFlags),
    Some (∅ : ProfileStore) = Some FunctionProfiles /\
    fromFunction switches_off foo_branches_only = Ok Flags /\
    (ProfileBranches Flags = true \/ ProfileAllocations Flags = true
     \/ ApplyPGO Flags = true).
Proof.
  eapply (preopt_reports_none_iff_instrumentation_stage_reached switches_off
            no_loops (Some ∅) foo_branches_only).
  reflexivity.
Defined.

Lemma setReg_eq (r : reg) (v : Z) (env : reg -> option Z) :
  setReg r v env r = Some v.
Proof. unfold setReg. by rewrite decide_True. Qed.

(** X4.  Run with the condition worth [c], the three instructions put in
    front of the conditional branch of block number [BBidx] add 1 to
    Total and [c] to Taken of slot [BBidx], each in 64-bit arithmetic,
    and call nothing. *)
Theorem branch_counters_count (fn : string) (BBidx : nat) (Cond : Value)
    (m : Machine) (P : FunctionProfile) (B : BranchInfo.t) (c : Z) :
  memory m !! fn = Some P ->
  BranchProfiles P !! BBidx = Some (Some B) ->
  eval (regs m) Cond = Some c ->
  exists m' : Machine,
    exec_insts (branchCounters fn BBidx Cond) m = Some m' /\
    memory m' !! fn
      = Some (set_BranchProfiles
                (<[BBidx := Some (BranchInfo.mk
                                    (wrap64 (BranchInfo.Taken B + c))
                                    (wrap64 (BranchInfo.Total B + 1)))]>
                   (BranchProfiles P)) P) /\
    trace m' = trace m.
Proof.
  intros HP HB Hc. unfold branchCounters, counterPtr, i64.
  cbn [exec_insts exec_inst eval mbind option_bind].
  rewrite HP. cbn [mbind option_bind loadCell].
  rewrite HB. cbn [mbind option_bind fmap option_fmap option_map id].
  cbn [memory regs trace]. rewrite Hc. cbn [mbind option_bind].
  cbn [memory regs trace]. rewrite setReg_eq.
  cbn [mbind option_bind]. rewrite lookup_insert_eq. cbn [mbind option_bind].
  cbn [loadCell storeCell set_BranchProfiles BranchProfiles].
  rewrite list_lookup_alter_eq, HB.
  cbn [mbind option_bind fmap option_fmap option_map id BranchInfo.Taken].
  eexists. split; [reflexivity|]. cbn [memory trace]. split; [|done].
  rewrite lookup_insert_eq. f_equal.
  cbn [CallCount Preopt Postopt Loops BBs Insts].
  unfold set_BranchProfiles. f_equal.
  rewrite list_alter_alter_eq, list_insert_alter.
  apply list_alter_ext; [|done].
  intros x Hx. rewrite HB in Hx. by simplify_eq.
Qed.

Lemma branch_counters_count_witness :
  exists m' : Machine,
    exec_insts (branchCounters "foo" 1 (VReg (Numbered 5)))
      (mkMachine {[ "foo" := foo_after_ten_calls ]}
         (setReg (Numbered 5) 1 (fun _ => None)) []) = Some m' /\
    memory m' !! "foo"
      = Some (set_BranchProfiles
                (<[1%nat := Some (BranchInfo.mk (wrap64 (3 + 1)) (wrap64 (10 + 1)))]>
                   (BranchProfiles foo_after_ten_calls)) foo_after_ten_calls) /\
    trace m' = [].
Proof.
  apply (branch_counters_count "foo" 1 (VReg (Numbered 5))
           (mkMachine {[ "foo" := foo_after_ten_calls ]}
              (setReg (Numbered 5) 1 (fun _ => None)) [])
           foo_after_ten_calls (BranchInfo.mk 3 10) 1);
    reflexivity.
Defined.

(** With calls requested, allocations not, and a profile in the store,
    the post-optimization pass returns what [addCallInstrumentation]
    makes of the function. *)
Lemma postopt_calls_only (sw : ForceSwitches) (FunctionProfiles : ProfileStore)
    (F F' : Function) (Flags : ProfilingFlags) (Prof : FunctionProfile) :
  fromFunction sw F = Ok Flags ->
  ProfileCalls Flags = true ->
  ProfileAllocations Flags = false ->
  getProfile FunctionProfiles (getName F) = Some Prof ->
  addCallInstrumentation Prof F = Ok F' ->
  JITPostoptimizationProfiler_run sw (Some FunctionProfiles) F
    = Ok (PreservedAnalyses.none, F', Some FunctionProfiles).
Proof.
  intros HF Hc Ha HP HI. unfold JITPostoptimizationProfiler_run.
  rewrite HF. cbn. rewrite Hc, Ha, HP. cbn. by rewrite HI.
Qed.

(** ** More on the flags and their annotation *)

(** X5.  Writing flags as an annotation and reading them back gives the
    flags: [fromMDNode] undoes [toMDNode], a function on which the tuple
    is attached as [julia.prof] resolves to these flags whatever the
    force switches and whatever it carried before, and two different
    flag records never give the same tuple. *)
Theorem annotation_round_trip (sw : ForceSwitches) (F : Function)
    (Flags Flags' : ProfilingFlags) :
  fromMDNode (toMDNode Flags) = Ok Flags /\
  fromFunction sw (setMetadata "julia.prof" (toMDNode Flags) F) = Ok Flags /\
  (toMDNode Flags = toMDNode Flags' -> Flags = Flags').
Proof.
  split; [apply fromMDNode_toMDNode|]. split.
  - rewrite (fromFunction_annotated _ _ (toMDNode Flags)).
    + apply fromMDNode_toMDNode.
    + unfold setMetadata. cbn [getMetadata]. apply lookup_insert_eq.
  - intros H.
    pose proof (fromMDNode_toMDNode Flags) as H1.
    pose proof (fromMDNode_toMDNode Flags') as H2.
    rewrite H in H1. congruence.
Qed.

(** X6.  [fromMDNode] succeeds on exactly the tuples of four integer
    constants that fit 64 bits, and then each flag is set iff its
    operand is nonzero.  A tuple with another number of operands fails
    the assertion, and a node that is not a tuple fails the cast. *)
Theorem fromMDNode_accepts_exactly_four_integers (MDN : MDNode) :
  (forall Flags : ProfilingFlags,
      fromMDNode MDN = Ok Flags <->
      exists (wa wb wc wd : N) (a b c d : Z),
        MDN = MDTuple [ConstantAsMetadata (ConstantInt wa a);
                       ConstantAsMetadata (ConstantInt wb b);
                       ConstantAsMetadata (ConstantInt wc c);
                       ConstantAsMetadata (ConstantInt wd d)] /\
        (a < u64_modulus /\ b < u64_modulus /\ c < u64_modulus /\ d < u64_modulus) /\
        Flags = mkProfilingFlags (nonzero a) (nonzero b) (nonzero c) (nonzero d)) /\
  (forall ops : list Metadata,
      MDN = MDTuple ops -> length ops ≠ 4%nat ->
      fromMDNode MDN = Fault AssertionFailed) /\
  ((forall ops : list Metadata, MDN ≠ MDTuple ops) ->
      fromMDNode MDN = Fault BadCast).
Proof.
  split; [|split].
  - intros Flags. split.
    + destruct MDN as [ops| | |]; try done.
      destruct ops as [|o0 [|o1 [|o2 [|o3 [|o4 ops]]]]]; try done.
      destruct o0 as [[wa a| | |]|]; try done.
      destruct o1 as [[wb b| | |]|]; try done.
      all: unfold fromMDNode; cbn; unfold getZExtValue; cbn.
      all: destruct (a <? u64_modulus) eqn:Ha; cbn; try done.
      all: try (destruct (b <? u64_modulus) eqn:Hb; cbn; try done).
      destruct o2 as [[wc c| | |]|]; cbn; try done.
      destruct (c <? u64_modulus) eqn:Hc; cbn; try done.
      destruct o3 as [[wd d| | |]|]; cbn; try done.
      destruct (d <? u64_modulus) eqn:Hd; cbn; try done.
      intros [= <-]. apply Z.ltb_lt in Ha, Hb, Hc, Hd.
      by exists wa, wb, wc, wd, a, b, c, d.
    + intros (wa & wb & wc & wd & a & b & c & d & -> & (Ha & Hb & Hc & Hd) & ->).
      by apply fromMDNode_ints.
  - intros ops -> Hlen. unfold fromMDNode. cbn [castMDTuple mbind result_bind].
    unfold getNumOperands.
    destruct (Nat.eqb_spec (length ops) 4) as [E|_]; [done|reflexivity].
  - intros H. destruct MDN as [ops| | |]; try done. by destruct (H ops).
Qed.

(** ** Which calls the allocation instrumentation counts *)

Lemma append_cons (a : ascii) (s t : string) : String a s +:+ t = String a (s +:+ t).
Proof. reflexivity. Qed.

Lemma prefix_spec (a b : string) :
  String.prefix a b = true <-> exists post : string, b = a +:+ post.
Proof.
  revert b. induction a as [|x a IH]; intros b.
  - split; [|by destruct b]. intros _. by exists b.
  - destruct b as [|y b]; simpl.
    + split; [done|]. by intros [post H].
    + destruct (ascii_dec x y) as [->|Hne].
      * rewrite IH. split.
        -- intros [post ->]. by exists post.
        -- intros [post H]. rewrite append_cons in H.
           injection H as ->. by exists post.
      * split; [done|]. intros [post H]. rewrite append_cons in H. congruence.
Qed.

Lemma contains_spec (hay needle : string) :
  contains hay needle = true <->
  exists pre post : string, hay = pre +:+ needle +:+ post.
Proof.
  induction hay as [|c hay IH].
  - cbn [contains]. rewrite orb_false_r, prefix_spec. split.
    + intros [post H]. by exists "", post.
    + intros ([|? pre] & post & H); [by exists post|done].
  - cbn [contains]. rewrite orb_true_iff, prefix_spec, IH. split.
    + intros [[post H]|(pre & post & ->)].
      * by exists "", post.
      * by exists (String c pre), post.
    + intros ([|c' pre] & post & H).
      * left. by exists post.
      * right. rewrite append_cons in H. injection H as -> ->. by exists pre, post.
Qed.

Lemma matchingCall_spec (Preopt_ : bool) (CI : Instruction) :
  matchingCall Preopt_ CI = true <->
  exists (Name : string) (args : list Value),
    CI = CallInst (Direct Name) args /\
    if Preopt_ then Name = "julia.gc_alloc_obj"
    else (exists pre post : string, Name = pre +:+ "jl_gc_pool_alloc" +:+ post) \/
         (exists pre post : string, Name = pre +:+ "jl_gc_big_alloc" +:+ post).
Proof.
  split.
  - destruct CI as [| | | |[Name|] args|]; try done. cbn [matchingCall].
    intros H. exists Name, args. split; [done|].
    unfold isAllocCall in H. destruct Preopt_.
    + by apply String.eqb_eq.
    + apply orb_true_iff in H. by rewrite !contains_spec in H.
  - intros (Name & args & -> & H). cbn [matchingCall]. unfold isAllocCall.
    destruct Preopt_.
    + by apply String.eqb_eq.
    + apply orb_true_iff. by rewrite !contains_spec.
Qed.

Lemma allocCounters_cases (fn : string) (Preopt_ : bool) (bb i : nat)
    (CI : Instruction) :
  (matchingCall Preopt_ CI = false /\ allocCounters fn Preopt_ bb i CI = Ok []) \/
  (matchingCall Preopt_ CI = true /\ hasSizeOperand CI = false /\
   allocCounters fn Preopt_ bb i CI = Fault OutOfBounds) \/
  (matchingCall Preopt_ CI = true /\ hasSizeOperand CI = true /\
   exists SizeArg : Value,
     (exists (callee : Callee) (args : list Value),
        CI = CallInst callee args /\ args !! 1%nat = Some SizeArg) /\
     allocCounters fn Preopt_ bb i CI
     = Ok [ IntCast64 (AllocSizeReg bb i) SizeArg;
            AtomicRMWAdd None (counterPtr fn (AllocSizeCell Preopt_))
              (VReg (AllocSizeReg bb i));
            AtomicRMWAdd None (counterPtr fn (AllocCountCell Preopt_)) (i64 1) ]).
Proof.
  destruct CI as [| | | |[Name|] args|]; try (by left).
  cbn [matchingCall allocCounters hasSizeOperand].
  destruct (isAllocCall Preopt_ Name); [right|by left].
  destruct (args !! 1%nat) as [SizeArg|] eqn:Hl.
  - right. split; [done|]. split.
    + apply bool_decide_eq_true_2. apply lookup_lt_Some in Hl. lia.
    + exists SizeArg. split; [|done]. by exists (Direct Name), args.
  - left. split; [done|]. split; [|done].
    apply bool_decide_eq_false_2. apply lookup_ge_None in Hl. lia.
Qed.

(** X7.  The allocation instrumentation puts counters in front of an
    instruction (or stops for want of the size operand) exactly when the
    instruction is a direct call of a function it recognises by name:
    before optimization the function named [julia.gc_alloc_obj] and no
    other, after optimization any function whose name has
    [jl_gc_pool_alloc] or [jl_gc_big_alloc] somewhere in it.  Indirect
    calls and other instructions are passed over. *)
Theorem allocation_calls_recognised (fn : string) (Preopt_ : bool) (bb i : nat)
    (CI : Instruction) :
  allocCounters fn Preopt_ bb i CI ≠ Ok [] <->
  exists (Name : string) (args : list Value),
    CI = CallInst (Direct Name) args /\
    if Preopt_ then Name = "julia.gc_alloc_obj"
    else (exists pre post : string, Name = pre +:+ "jl_gc_pool_alloc" +:+ post) \/
         (exists pre post : string, Name = pre +:+ "jl_gc_big_alloc" +:+ post).
Proof.
  rewrite <- matchingCall_spec.
  destruct (allocCounters_cases fn Preopt_ bb i CI)
    as [[Hm ->]|[(Hm & _ & ->)|(Hm & _ & ? & _ & ->)]]; rewrite Hm; split; done.
Qed.

(** ** What the allocation instrumentation does to a function *)

Lemma addAllocInstrumentation_insts_result (fn : string) (Preopt_ : bool)
    (bb i : nat) (insts : list Instruction) :
  match addAllocInstrumentation_insts fn Preopt_ bb i insts with
  | Ok insts' =>
      forallb (fun CI => implb (matchingCall Preopt_ CI) (hasSizeOperand CI)) insts
        = true /\
      insts `sublist_of` insts' /\
      length insts'
      = (length insts
         + 3 * length (filter (fun CI => matchingCall Preopt_ CI = true) insts))%nat
  | Fault f =>
      forallb (fun CI => implb (matchingCall Preopt_ CI) (hasSizeOperand CI)) insts
        = false /\
      f = OutOfBounds
  end.
Proof.
  revert i. induction insts as [|CI rest IH]; intros i; [done|].
  cbn [addAllocInstrumentation_insts forallb]. rewrite filter_cons.
  destruct (allocCounters_cases fn Preopt_ bb i CI)
    as [[Hm ->]|[(Hm & Hs & ->)|(Hm & Hs & SizeArg & _ & ->)]];
    rewrite Hm, ?Hs; cbn [mbind result_bind implb andb]; [| done |].
  - specialize (IH (S i)).
    destruct (addAllocInstrumentation_insts fn Preopt_ bb (S i) rest) as [rest'|f];
      cbn [mbind result_bind]; [|done].
    destruct IH as (Hok & Hsub & Hlen). split; [done|]. split.
    + by apply sublist_skip.
    + rewrite decide_False by done. cbn [app length]. lia.
  - specialize (IH (S i)).
    destruct (addAllocInstrumentation_insts fn Preopt_ bb (S i) rest) as [rest'|f];
      cbn [mbind result_bind]; [|done].
    destruct IH as (Hok & Hsub & Hlen). split; [done|]. split.
    + cbn [app]. do 3 apply sublist_cons. by apply sublist_skip.
    + rewrite decide_True by done. cbn [app length]. lia.
Qed.

Lemma addAllocInstrumentation_blocks_result (fn : string) (Preopt_ : bool)
    (bb : nat) (BBs_ : list BasicBlock) :
  match addAllocInstrumentation_blocks fn Preopt_ bb BBs_ with
  | Ok blocks' =>
      forallb
        (fun BB =>
           forallb (fun CI => implb (matchingCall Preopt_ CI) (hasSizeOperand CI))
             (bb_insts BB)) BBs_ = true /\
      Forall2 (withAllocCounters Preopt_) BBs_ blocks'
  | Fault f =>
      forallb
        (fun BB =>
           forallb (fun CI => implb (matchingCall Preopt_ CI) (hasSizeOperand CI))
             (bb_insts BB)) BBs_ = false /\
      f = OutOfBounds
  end.
Proof.
  revert bb. induction BBs_ as [|BB rest IH]; intros bb; [by split|].
  cbn [addAllocInstrumentation_blocks forallb].
  pose proof (addAllocInstrumentation_insts_result fn Preopt_ bb 0 (bb_insts BB)) as HI.
  destruct (addAllocInstrumentation_insts fn Preopt_ bb 0 (bb_insts BB)) as [insts'|f];
    cbn [mbind result_bind].
  2:{ destruct HI as [-> ->]. done. }
  destruct HI as (-> & Hsub & Hlen). cbn [andb].
  specialize (IH (S bb)).
  destruct (addAllocInstrumentation_blocks fn Preopt_ (S bb) rest) as [rest'|f];
    cbn [mbind result_bind]; [|done].
  destruct IH as [Hok HF]. split; [done|].
  apply Forall2_cons. split; [|done]. by repeat split.
Qed.




(** X10.  Run in front of a counted call whose operand 1 is worth [s],
    the instructions the allocation instrumentation creates add [s] to
    Size and 1 to Count of the record they were created for (Preopt
    before optimization, Postopt after), each in 64-bit arithmetic; they
    leave the other record and every other field of the profile alone
    and call nothing. *)
Theorem alloc_counters_count (fn : string) (Preopt_ : bool) (bb i : nat)
    (Name : string) (args : list Value) (SizeArg : Value) (m : Machine)
    (P : FunctionProfile) (s : Z) :
  isAllocCall Preopt_ Name = true ->
  args !! 1%nat = Some SizeArg ->
  memory m !! fn = Some P ->
  eval (regs m) SizeArg = Some s ->
  exists (insts : list Instruction) (m' : Machine),
    allocCounters fn Preopt_ bb i (CallInst (Direct Name) args) = Ok insts /\
    exec_insts insts m = Some m' /\
    memory m' !! fn
      = Some (if Preopt_
              then set_Preopt
                     (AllocInfo.mk (wrap64 (AllocInfo.Size (Preopt P) + s))
                                   (wrap64 (AllocInfo.Count (Preopt P) + 1))) P
              else set_Postopt
                     (AllocInfo.mk (wrap64 (AllocInfo.Size (Postopt P) + s))
                                   (wrap64 (AllocInfo.Count (Postopt P) + 1))) P) /\
    trace m' = trace m.
Proof.
  intros Hm Ha HP Hs. cbn [allocCounters]. rewrite Hm, Ha.
  do 2 eexists. split; [reflexivity|].
  unfold counterPtr, i64.
  cbn [exec_insts exec_inst eval mbind option_bind]. rewrite Hs.
  cbn [mbind option_bind regs memory trace]. rewrite setReg_eq, HP.
  cbn [mbind option_bind]. 
  assert (loadCell P (AllocSizeCell Preopt_)
          = Some (AllocInfo.Size (if Preopt_ then Preopt P else Postopt P))) as ->
    by (by destruct Preopt_).
  cbn [mbind option_bind memory regs trace]. rewrite lookup_insert_eq.
  cbn [mbind option_bind].
  match goal with
  | |- context [loadCell ?Q (AllocCountCell Preopt_)] =>
      assert (loadCell Q (AllocCountCell Preopt_)
              = Some (AllocInfo.Count (if Preopt_ then Preopt P else Postopt P))) as ->
        by (by destruct Preopt_)
  end.
  cbn [mbind option_bind]. split; [reflexivity|]. cbn [memory trace].
  split; [|done]. rewrite lookup_insert_eq. by destruct Preopt_.
Qed.

Lemma alloc_counters_count_witness :
  exists (insts : list Instruction) (m' : Machine),
    allocCounters "foo" false 0 2
      (CallInst (Direct "ijl_gc_pool_alloc") [VArg 0; i64 1400; i64 32]) = Ok insts /\
    exec_insts insts (mkMachine store_with_foo (fun _ => None) []) = Some m' /\
    memory m' !! "foo"
      = Some (set_Postopt
                (AllocInfo.mk
                   (wrap64 (AllocInfo.Size (Postopt make_unique_FunctionProfile) + 1400))
                   (wrap64 (AllocInfo.Count (Postopt make_unique_FunctionProfile) + 1)))
                make_unique_FunctionProfile) /\
    trace m' = [].
Proof.
  apply (alloc_counters_count "foo" false 0 2 "ijl_gc_pool_alloc"
           [VArg 0; i64 1400; i64 32] (i64 1400)
           (mkMachine store_with_foo (fun _ => None) [])
           make_unique_FunctionProfile 1400);
    reflexivity.
Defined.

(** ** What the branch instrumentation does to a function and its slots *)

Lemma addBranchInstrumentation_loop_ok (fn : string) (BBs_ : list BasicBlock)
    (BBidx : nat) (Slots : list (option BranchInfo.t)) :
  (BBidx + length BBs_ ≤ length Slots)%nat ->
  exists (Slots' : list (option BranchInfo.t)) (blocks' : list BasicBlock),
    addBranchInstrumentation_loop fn BBs_ BBidx Slots = Ok (Slots', blocks') /\
    length Slots' = length Slots /\
    Forall2 (withBranchCounters fn) BBs_ blocks' /\
    (forall (i : nat) (B : BranchInfo.t),
        Slots !! i = Some (Some B) -> Slots' !! i = Some (Some B)) /\
    (forall i : nat, (i < BBidx)%nat -> Slots' !! i = Slots !! i).
Proof.
  revert BBidx Slots. induction BBs_ as [|BB rest IH]; intros BBidx Slots Hlen.
  { exists Slots, []. repeat split; auto. }
  cbn [length] in Hlen. cbn [addBranchInstrumentation_loop].
  assert (forall Slots0 BBidx0 BB',
            length Slots0 = length Slots ->
            (forall i B, Slots !! i = Some (Some B) -> Slots0 !! i = Some (Some B)) ->
            (forall i, (i < BBidx)%nat -> Slots0 !! i = Slots !! i) ->
            (BBidx ≤ BBidx0)%nat ->
            (BBidx0 + length rest ≤ length Slots0)%nat ->
            withBranchCounters fn BB BB' ->
            exists Slots' blocks',
              (addBranchInstrumentation_loop fn rest BBidx0 Slots0
                 ≫= λ '(Slots', rest'), Ok (Slots', BB' :: rest'))
              = Ok (Slots', blocks') /\
              length Slots' = length Slots /\
              Forall2 (withBranchCounters fn) (BB :: rest) blocks' /\
              (forall i B, Slots !! i = Some (Some B) -> Slots' !! i = Some (Some B)) /\
              (forall i, (i < BBidx)%nat -> Slots' !! i = Slots !! i)) as Hstep.
  { intros Slots0 BBidx0 BB' Hl0 Hkeep Hframe Hle Hfit HBB'.
    destruct (IH BBidx0 Slots0 Hfit) as (Slots' & rest' & -> & Hl & HF & Hk & Hf).
    exists Slots', (BB' :: rest'). cbn [mbind result_bind].
    split; [done|]. split; [congruence|]. split; [by apply Forall2_cons|].
    split.
    - intros i B Hi. by apply Hk, Hkeep.
    - intros i Hi. rewrite Hf by lia. by apply Hframe. }
  assert (forall Cond t f,
            term_kind (bb_term BB) = CondBr Cond t f ->
            (forall c, Cond ≠ VConst c) ->
            exists Slots' blocks',
              match Slots !! BBidx with
              | Some BI =>
                  addBranchInstrumentation_loop fn rest (S BBidx)
                    match BI with
                    | Some _ => Slots
                    | None => <[BBidx:=Some (BranchInfo.mk 0 0)]> Slots
                    end
                  ≫= λ '(Slots', rest'),
                       Ok (Slots', instrumentBranch fn BBidx Cond BB :: rest')
              | None => Fault OutOfBounds
              end = Ok (Slots', blocks') /\
              length Slots' = length Slots /\
              Forall2 (withBranchCounters fn) (BB :: rest) blocks' /\
              (forall i B, Slots !! i = Some (Some B) -> Slots' !! i = Some (Some B)) /\
              (forall i, (i < BBidx)%nat -> Slots' !! i = Slots !! i)) as Hcond.
  { intros Cond t f Hk Hnc.
    destruct (lookup_lt_is_Some_2 Slots BBidx ltac:(lia)) as [BI HBI].
    rewrite HBI. apply Hstep.
    - destruct BI; by rewrite ?length_insert.
    - intros i B Hi. destruct BI; [done|].
      rewrite list_lookup_insert_ne; [done|]. intros <-. congruence.
    - intros i Hi. destruct BI; [done|]. by rewrite list_lookup_insert_ne by lia.
    - lia.
    - destruct BI; rewrite ?length_insert; lia.
    - split; [done|]. split; [done|]. rewrite Hk.
      destruct Cond as [c| |]; [by destruct (Hnc c)|by exists BBidx..]. }
  destruct (term_kind (bb_term BB)) as [t|cond t f|txt] eqn:Hk.
  - apply Hstep; auto; try lia. unfold withBranchCounters. by rewrite Hk.
  - destruct cond as [c|r|n].
    + apply Hstep; auto; try lia. unfold withBranchCounters. by rewrite Hk.
    + by apply (Hcond _ t f).
    + by apply (Hcond _ t f).
  - apply Hstep; auto; try lia. unfold withBranchCounters. by rewrite Hk.
Qed.

(** X11.  [addBranchInstrumentation] stops in one case only: the profile
    already has branch slots and their number is not the number of
    blocks of the function; it then stops on its assertion.  With no
    slots yet, or one slot per block, it goes through: the slot it takes
    for a block is always inside the vector. *)
Theorem addBranchInstrumentation_fails_only_on_a_size_mismatch
    (Prof : FunctionProfile) (F : Function) :
  match addBranchInstrumentation Prof F with
  | Ok _ => slotsFit Prof F
  | Fault f => ~ slotsFit Prof F /\ f = AssertionFailed
  end.
Proof.
  unfold addBranchInstrumentation, slotsFit.
  destruct (BranchProfiles Prof) as [|BI Slots] eqn:HS.
  - rewrite length_replicate, Nat.eqb_refl. cbn [assert mbind result_bind].
    destruct (addBranchInstrumentation_loop_ok (getName F) (blocks F) 0
                (replicate (length (blocks F)) None))
      as (Slots' & blocks' & -> & _); [by rewrite length_replicate|].
    cbn [mbind result_bind]. by left.
  - destruct (Nat.eqb_spec (length (BI :: Slots)) (length (blocks F))) as [E|NE];
      cbn [assert mbind result_bind].
    + destruct (addBranchInstrumentation_loop_ok (getName F) (blocks F) 0 (BI :: Slots))
        as (Slots' & blocks' & -> & _); [lia|].
      cbn [mbind result_bind]. by right.
    + split; [|done]. by intros [|].
Qed.

Lemma addBranchInstrumentation_result (Prof Prof' : FunctionProfile)
    (F F' : Function) :
  addBranchInstrumentation Prof F = Ok (Prof', F') ->
  getName F' = getName F /\
  getMetadata F' = getMetadata F /\
  Forall2 (withBranchCounters (getName F)) (blocks F) (blocks F') /\
  length (BranchProfiles Prof') = length (blocks F) /\
  (forall (i : nat) (B : BranchInfo.t),
      BranchProfiles Prof !! i = Some (Some B) ->
      BranchProfiles Prof' !! i = Some (Some B)) /\
  Prof' = set_BranchProfiles (BranchProfiles Prof') Prof.
Proof.
  unfold addBranchInstrumentation.
  set (Slots := match BranchProfiles Prof with
                | [] => replicate (length (blocks F)) None
                | _ => BranchProfiles Prof
                end).
  destruct (Nat.eqb_spec (length Slots) (length (blocks F))) as [E|NE];
    cbn [assert mbind result_bind]; [|done].
  destruct (addBranchInstrumentation_loop_ok (getName F) (blocks F) 0 Slots)
    as (Slots' & blocks' & -> & Hl & HF & Hkeep & _); [lia|].
  cbn [mbind result_bind]. intros [= <- <-].
  cbn [set_BranchProfiles set_blocks BranchProfiles getName getMetadata blocks].
  repeat split; [done|congruence|].
  intros i B Hi. apply Hkeep. unfold Slots.
  destruct (BranchProfiles Prof); [done|exact Hi].
Qed.

(** X12.  When [addBranchInstrumentation] goes through, the function
    keeps its name, its metadata and its blocks in their order; every
    block keeps its identity, its terminator and its instructions, and
    only the blocks that end in a branch on a non-constant value gain
    the three counter instructions, at the end, in front of the branch.
    The profile then has one slot per block; a slot that was populated
    keeps its counters, and nothing of the profile but the slots is
    changed. *)
Theorem addBranchInstrumentation_only_adds_counters (Prof Prof' : FunctionProfile)
    (F F' : Function) :
  addBranchInstrumentation Prof F = Ok (Prof', F') ->
  getName F' = getName F /\
  getMetadata F' = getMetadata F /\
  Forall2 (withBranchCounters (getName F)) (blocks F) (blocks F') /\
  length (BranchProfiles Prof') = length (blocks F) /\
  (forall (i : nat) (B : BranchInfo.t),
      BranchProfiles Prof !! i = Some (Some B) ->
      BranchProfiles Prof' !! i = Some (Some B)) /\
  Prof' = set_BranchProfiles (BranchProfiles Prof') Prof.
Proof.
  intros H. destruct (addBranchInstrumentation_result Prof Prof' F F' H)
    as (Hn & Hm & HF & Hl & Hk & HP).
  repeat split; assumption.
Qed.

Lemma addBranchInstrumentation_only_adds_counters_witness :
  Forall2 (withBranchCounters "foo") jump_then_branch
    [ mkBasicBlock (Block 0) [OtherInst "add"] (mkTerminator (Br (Block 1)) None);
      mkBasicBlock (Block 1)
        ([OtherInst "icmp"] ++ branchCounters "foo" 0 (VReg (Numbered 5)))
        (mkTerminator (CondBr (VReg (Numbered 5)) (Block 2) (Block 3)) None);
      mkBasicBlock (Block 2) [] ret;
      mkBasicBlock (Block 3) [] ret ].
Proof.
  apply (addBranchInstrumentation_only_adds_counters make_unique_FunctionProfile
           (set_BranchProfiles [Some (BranchInfo.mk 0 0); None; None; None]
              make_unique_FunctionProfile)
           foo_branches_only (set_blocks _ foo_branches_only)).
  reflexivity.
Defined.

Lemma addBranchInstrumentation_loop_prefix (fn : string)
    (pre rest : list BasicBlock) (BBidx : nat)
    (Slots Slots' : list (option BranchInfo.t)) (blocks' : list BasicBlock) :
  Forall (fun BB => endsInSkippedBranch BB = false) pre ->
  (BBidx + length (pre ++ rest) ≤ length Slots)%nat ->
  (forall j : nat, (BBidx ≤ j < length Slots)%nat -> Slots !! j = Some None) ->
  addBranchInstrumentation_loop fn (pre ++ rest) BBidx Slots = Ok (Slots', blocks') ->
  forall (k : nat) (BB : BasicBlock),
    pre !! k = Some BB ->
    Slots' !! (BBidx + k)%nat = Some (instrumentedAt fn (BBidx + k) BB).1 /\
    blocks' !! k = Some (instrumentedAt fn (BBidx + k) BB).2.
Proof.
  revert BBidx Slots Slots' blocks'.
  induction pre as [|BB0 pre IH]; intros BBidx Slots Slots' blocks' Hpre Hlen Hnone Hrun k BB Hk;
    [done|].
  apply Forall_cons in Hpre as [Hns Hpre].
  cbn [app length] in Hlen. cbn [app addBranchInstrumentation_loop] in Hrun.
  unfold endsInSkippedBranch in Hns.
  assert (forall Slots0 BB0',
            length Slots0 = length Slots ->
            (forall j, (S BBidx ≤ j < length Slots0)%nat -> Slots0 !! j = Some None) ->
            Slots0 !! BBidx = Some (instrumentedAt fn BBidx BB0).1 ->
            BB0' = (instrumentedAt fn BBidx BB0).2 ->
            (addBranchInstrumentation_loop fn (pre ++ rest) (S BBidx) Slots0
               ≫= λ '(Slots', rest'), Ok (Slots', BB0' :: rest'))
            = Ok (Slots', blocks') ->
            Slots' !! (BBidx + k)%nat = Some (instrumentedAt fn (BBidx + k) BB).1 /\
            blocks' !! k = Some (instrumentedAt fn (BBidx + k) BB).2) as Hstep.
  { intros Slots0 BB0' Hl0 Hnone0 Hat -> Hrun0.
    destruct (addBranchInstrumentation_loop fn (pre ++ rest) (S BBidx) Slots0)
      as [[Slots1 rest1]|] eqn:Hloop; [|done].
    cbn [mbind result_bind] in Hrun0. injection Hrun0 as <- <-.
    destruct k as [|k].
    - injection Hk as <-. rewrite Nat.add_0_r. split; [|done].
      destruct (addBranchInstrumentation_loop_ok fn (pre ++ rest) (S BBidx) Slots0)
        as (S2 & b2 & Hok & _ & _ & _ & Hframe); [lia|].
      rewrite Hloop in Hok. injection Hok as <- <-.
      rewrite Hframe by lia. done.
    - cbn [lookup list_lookup] in Hk.
      replace (BBidx + S k)%nat with (S BBidx + k)%nat by lia.
      apply (IH (S BBidx) Slots0 Slots1 rest1); auto. lia. }
  assert (BBidx < length Slots)%nat as Hin by lia.
  destruct (term_kind (bb_term BB0)) as [t|cond t f|txt] eqn:Hkind; [done| |].
  - destruct cond as [c|r|n]; [done| |].
    + rewrite (Hnone BBidx) in Hrun by lia.
      apply (Hstep _ _ ltac:(by rewrite length_insert)) in Hrun; [done| | |].
      * intros j Hj. rewrite length_insert in Hj.
        rewrite list_lookup_insert_ne by lia. apply Hnone. lia.
      * unfold instrumentedAt. rewrite Hkind. by apply list_lookup_insert_eq.
      * unfold instrumentedAt. by rewrite Hkind.
    + rewrite (Hnone BBidx) in Hrun by lia.
      apply (Hstep _ _ ltac:(by rewrite length_insert)) in Hrun; [done| | |].
      * intros j Hj. rewrite length_insert in Hj.
        rewrite list_lookup_insert_ne by lia. apply Hnone. lia.
      * unfold instrumentedAt. rewrite Hkind. by apply list_lookup_insert_eq.
      * unfold instrumentedAt. by rewrite Hkind.
  - apply (Hstep _ _ eq_refl) in Hrun; [done| | |].
    + intros j Hj. apply Hnone. lia.
    + unfold instrumentedAt. rewrite Hkind. apply Hnone. lia.
    + unfold instrumentedAt. by rewrite Hkind.
Qed.

(** X13.  In a profile that had no slots yet, the slots of the blocks
    that come before the first block ending in an unconditional or
    constant branch are at the blocks' own positions: block [k] of that
    stretch has slot [k] populated (with counters at zero, and the
    counter instructions of slot [k] in front of its branch) when it ends
    in a branch on a non-constant value, and unpopulated otherwise.  A
    function in which no block ends in such a skipped branch has all its
    slots at the block positions. *)
Theorem branch_slots_before_the_first_skipped_block
    (Prof Prof' : FunctionProfile) (F F' : Function)
    (pre rest : list BasicBlock) :
  BranchProfiles Prof = [] ->
  blocks F = pre ++ rest ->
  Forall (fun BB => endsInSkippedBranch BB = false) pre ->
  addBranchInstrumentation Prof F = Ok (Prof', F') ->
  forall (k : nat) (BB : BasicBlock),
    pre !! k = Some BB ->
    BranchProfiles Prof' !! k = Some (instrumentedAt (getName F) k BB).1 /\
    blocks F' !! k = Some (instrumentedAt (getName F) k BB).2.
Proof.
  intros HS HB Hpre. unfold addBranchInstrumentation. rewrite HS.
  rewrite length_replicate, Nat.eqb_refl. cbn [assert mbind result_bind].
  destruct (addBranchInstrumentation_loop _ _ _ _) as [[Slots' blocks']|] eqn:Hloop;
    [|done].
  cbn [mbind result_bind]. intros [= <- <-] k BB Hk.
  cbn [set_BranchProfiles set_blocks BranchProfiles blocks].
  rewrite HB in Hloop.
  apply (addBranchInstrumentation_loop_prefix (getName F) pre rest 0
           _ Slots' blocks' Hpre) with (k := k) (BB := BB) in Hloop; auto.
  - rewrite length_replicate. lia.
  - intros j Hj. rewrite length_replicate in Hj. apply lookup_replicate_2. lia.
Qed.

Lemma branch_slots_before_the_first_skipped_block_witness :
  BranchProfiles
    (set_BranchProfiles [Some (BranchInfo.mk 0 0); None] make_unique_FunctionProfile)
    !! 0%nat
  = Some (instrumentedAt "foo" 0
            (mkBasicBlock (Block 1) [OtherInst "icmp"]
               (mkTerminator (CondBr (VReg (Numbered 5)) (Block 2) (Block 3)) None))).1 /\
  blocks
    (set_blocks
       [ mkBasicBlock (Block 1)
           ([OtherInst "icmp"] ++ branchCounters "foo" 0 (VReg (Numbered 5)))
           (mkTerminator (CondBr (VReg (Numbered 5)) (Block 2) (Block 3)) None);
         mkBasicBlock (Block 2) [] ret ]
       (annotated "foo" (mkProfilingFlags false true false false)
          [ mkBasicBlock (Block 1) [OtherInst "icmp"]
              (mkTerminator (CondBr (VReg (Numbered 5)) (Block 2) (Block 3)) None);
            mkBasicBlock (Block 2) [] ret ]))
    !! 0%nat
  = Some (instrumentedAt "foo" 0
            (mkBasicBlock (Block 1) [OtherInst "icmp"]
               (mkTerminator (CondBr (VReg (Numbered 5)) (Block 2) (Block 3)) None))).2.
Proof.
  apply (branch_slots_before_the_first_skipped_block make_unique_FunctionProfile
           (set_BranchProfiles [Some (BranchInfo.mk 0 0); None] make_unique_FunctionProfile)
           (annotated "foo" (mkProfilingFlags false true false false)
              [ mkBasicBlock (Block 1) [OtherInst "icmp"]
                  (mkTerminator (CondBr (VReg (Numbered 5)) (Block 2) (Block 3)) None);
                mkBasicBlock (Block 2) [] ret ])
           (set_blocks _ _)
           [ mkBasicBlock (Block 1) [OtherInst "icmp"]
               (mkTerminator (CondBr (VReg (Numbered 5)) (Block 2) (Block 3)) None);
             mkBasicBlock (Block 2) [] ret ]
           []).
  - reflexivity.
  - reflexivity.
  - repeat constructor.
  - reflexivity.
  - reflexivity.
Defined.

(** ** What applying the counts does, and when it can *)

Lemma applyPGOInstrumentation_loop_result (Slots : list (option BranchInfo.t))
    (BBs_ : list BasicBlock) (BBidx : nat) :
  match applyPGOInstrumentation_loop Slots BBs_ BBidx with
  | Ok blocks' =>
      length blocks' = length BBs_ /\
      forall (k : nat) (BB : BasicBlock),
        BBs_ !! k = Some BB ->
        exists B : BranchInfo.t,
          Slots !! (BBidx + k)%nat = Some (Some B) /\
          blocks' !! k = Some (withBranchWeights B BB)
  | Fault f =>
      exists k : nat,
        (k < length BBs_)%nat /\
        (forall j : nat, (j < k)%nat ->
           exists B : BranchInfo.t, Slots !! (BBidx + j)%nat = Some (Some B)) /\
        ((Slots !! (BBidx + k)%nat = None /\ f = OutOfBounds) \/
         (Slots !! (BBidx + k)%nat = Some None /\ f = NullDeref))
  end.
Proof.
  revert BBidx. induction BBs_ as [|BB0 rest IH]; intros BBidx.
  { split; [done|]. by intros k BB. }
  cbn [applyPGOInstrumentation_loop].
  destruct (Slots !! BBidx) as [[B|]|] eqn:HS.
  - specialize (IH (S BBidx)).
    destruct (applyPGOInstrumentation_loop Slots rest (S BBidx)) as [rest'|f];
      cbn [mbind result_bind].
    + destruct IH as [Hl Hk]. split; [cbn [length]; lia|].
      intros [|k] BB Hlook.
      * injection Hlook as <-. exists B. rewrite Nat.add_0_r. by split.
      * destruct (Hk k BB Hlook) as (B' & HB' & Hb').
        exists B'. by replace (BBidx + S k)%nat with (S BBidx + k)%nat by lia.
    + destruct IH as (k & Hk & Hbefore & Hat). exists (S k).
      replace (BBidx + S k)%nat with (S BBidx + k)%nat by lia.
      split; [cbn [length]; lia|]. split; [|done].
      intros [|j] Hj.
      * exists B. by rewrite Nat.add_0_r.
      * replace (BBidx + S j)%nat with (S BBidx + j)%nat by lia. apply Hbefore. lia.
  - exists 0%nat. rewrite Nat.add_0_r. split; [cbn [length]; lia|].
    split; [intros j Hj; lia|]. by right.
  - exists 0%nat. rewrite Nat.add_0_r. split; [cbn [length]; lia|].
    split; [intros j Hj; lia|]. by left.
Qed.


(** ** What the pre-optimization pass keeps *)

Lemma keepsBlock_refl (BB : BasicBlock) : keepsBlock BB BB.
Proof. by repeat split. Qed.

Lemma keepsBlock_trans (BB1 BB2 BB3 : BasicBlock) :
  keepsBlock BB1 BB2 -> keepsBlock BB2 BB3 -> keepsBlock BB1 BB3.
Proof.
  intros (Hl1 & Ht1 & Hs1) (Hl2 & Ht2 & Hs2).
  repeat split; [congruence..|by etrans].
Qed.

Lemma keepsBlocks_refl (bs : list BasicBlock) : Forall2 keepsBlock bs bs.
Proof. induction bs; constructor; auto using keepsBlock_refl. Qed.

Lemma withBranchCounters_keeps (fn : string) (BB BB' : BasicBlock) :
  withBranchCounters fn BB BB' -> keepsBlock BB BB'.
Proof.
  intros (Hl & Ht & Hi). split; [done|]. split; [by rewrite Ht|].
  destruct (term_kind (bb_term BB)) as [|[| |]|]; try by rewrite Hi.
  all: destruct Hi as [idx ->]; by apply sublist_inserts_r.
Qed.

Lemma withAllocCounters_keeps (Preopt_ : bool) (BB BB' : BasicBlock) :
  withAllocCounters Preopt_ BB BB' -> keepsBlock BB BB'.
Proof. intros (Hl & Ht & Hs & _). split; [done|]. split; [by rewrite Ht|done]. Qed.

Lemma withBranchWeights_keeps (B : BranchInfo.t) (BB : BasicBlock) :
  keepsBlock BB (withBranchWeights B BB).
Proof. unfold withBranchWeights. destruct (0 <? _); by repeat split. Qed.

Lemma applyPGOInstrumentation_keeps (Prof : FunctionProfile) (F F' : Function) :
  applyPGOInstrumentation Prof F = Ok F' ->
  getName F' = getName F /\
  (forall Kind : string, Kind ≠ MD_prof ->
     getMetadata F' !! Kind = getMetadata F !! Kind) /\
  Forall2 keepsBlock (blocks F) (blocks F').
Proof.
  unfold applyPGOInstrumentation. cbn [setMetadata blocks].
  pose proof (applyPGOInstrumentation_loop_result (BranchProfiles Prof) (blocks F) 0) as HR.
  destruct (applyPGOInstrumentation_loop (BranchProfiles Prof) (blocks F) 0)
    as [blocks'|]; cbn [mbind result_bind]; [|done].
  intros [= <-]. destruct HR as [Hl Hk]. cbn [set_blocks getName getMetadata blocks].
  split; [done|]. split.
  - intros Kind Hne. by apply lookup_insert_ne.
  - apply Forall2_same_length_lookup_2; [done|].
    intros i BB BB' Hi Hi'. destruct (Hk i BB Hi) as (B & _ & HB).
    rewrite HB in Hi'. injection Hi' as <-. apply withBranchWeights_keeps.
Qed.

Lemma addAllocInstrumentation_result (Preopt_ : bool) (F F' : Function) :
  addAllocInstrumentation Preopt_ F = Ok F' ->
  getName F' = getName F /\
  getMetadata F' = getMetadata F /\
  Forall2 (withAllocCounters Preopt_) (blocks F) (blocks F').
Proof.
  unfold addAllocInstrumentation.
  pose proof (addAllocInstrumentation_blocks_result (getName F) Preopt_ 0 (blocks F)) as H.
  destruct (addAllocInstrumentation_blocks (getName F) Preopt_ 0 (blocks F));
    cbn [mbind result_bind]; [|done].
  intros [= <-]. by destruct H.
Qed.

(** The stages of a run of the pre-optimization pass that has a store. *)
Lemma preopt_run_stages (sw : ForceSwitches) (LoopCount : Function -> Z)
    (FunctionProfiles : ProfileStore) (F : Function) (r : PassResult) :
  JITPreoptimizationProfiler_run sw LoopCount (Some FunctionProfiles) F = Ok r ->
  exists Flags : ProfilingFlags,
    fromFunction sw F = Ok Flags /\
    ((ProfileBranches Flags = false /\ ProfileAllocations Flags = false /\
      ApplyPGO Flags = false /\
      r = (PreservedAnalyses.all, F, Some FunctionProfiles)) \/
     exists (Prof1 : FunctionProfile) (F1 F2 F3 : Function),
       (ProfileBranches Flags = true \/ ProfileAllocations Flags = true \/
        ApplyPGO Flags = true) /\
       (if ProfileBranches Flags
        then addBranchInstrumentation
               (getOrCreateProfile FunctionProfiles (getName F)
                  (fun _ => profileAtCreation LoopCount F)).1 F
        else Ok ((getOrCreateProfile FunctionProfiles (getName F)
                    (fun _ => profileAtCreation LoopCount F)).1, F))
         = Ok (Prof1, F1) /\
       (if ProfileAllocations Flags then addAllocInstrumentation true F1 else Ok F1)
         = Ok F2 /\
       (if ApplyPGO Flags then applyPGOInstrumentation Prof1 F2 else Ok F2) = Ok F3 /\
       r = (PreservedAnalyses.none, F3,
            Some (<[getName F := Prof1]>
                    (getOrCreateProfile FunctionProfiles (getName F)
                       (fun _ => profileAtCreation LoopCount F)).2))).
Proof.
  unfold JITPreoptimizationProfiler_run.
  destruct (fromFunction sw F) as [Flags|]; [cbn [mbind result_bind]|done].
  intros H. exists Flags. split; [done|].
  destruct (negb (ProfileBranches Flags) && negb (ProfileAllocations Flags)
            && negb (ApplyPGO Flags)) eqn:Hreq.
  { left. injection H as <-.
    apply andb_true_iff in Hreq as [Hreq Hp].
    apply andb_true_iff in Hreq as [Hb Ha].
    apply negb_true_iff in Hb, Ha, Hp. done. }
  right.
  change (fun _ : unit =>
            let FP := make_unique_FunctionProfile in
            mkFunctionProfile (CallCount FP) (Preopt FP) (Postopt FP)
              (BranchProfiles FP) (LoopCount F) (Z.of_nat (length (blocks F)))
              (countInsts F))
    with (fun _ : unit => profileAtCreation LoopCount F) in H.
  destruct (getOrCreateProfile FunctionProfiles (getName F) _) as [Prof st1].
  cbn [fst snd].
  destruct (if ProfileBranches Flags then _ else _) as [[Prof1 F1]|] eqn:HB;
    [cbn [mbind result_bind] in H|done].
  destruct (if ProfileAllocations Flags then _ else _) as [F2|] eqn:HA;
    [cbn [mbind result_bind] in H|done].
  destruct (if ApplyPGO Flags then _ else _) as [F3|] eqn:HP;
    [cbn [mbind result_bind] in H|done].
  injection H as <-. exists Prof1, F1, F2, F3.
  split; [|by repeat split].
  apply andb_false_iff in Hreq as [Hreq|H].
  - apply andb_false_iff in Hreq as [H|H]; apply negb_false_iff in H; auto.
  - apply negb_false_iff in H; auto.
Qed.

Lemma preopt_run_keeps (sw : ForceSwitches) (LoopCount : Function -> Z)
    (JITProf JITProf' : option ProfileStore) (F F' : Function)
    (PA : PreservedAnalyses.t) :
  JITPreoptimizationProfiler_run sw LoopCount JITProf F = Ok (PA, F', JITProf') ->
  getName F' = getName F /\
  (forall Kind : string, Kind ≠ MD_prof ->
     getMetadata F' !! Kind = getMetadata F !! Kind) /\
  Forall2 keepsBlock (blocks F) (blocks F').
Proof.
  destruct JITProf as [st|].
  2:{ intros [= _ <- _]. auto using keepsBlocks_refl. }
  intros H. apply preopt_run_stages in H as (Flags & _ & [(_ & _ & _ & H)|H]).
  { injection H as _ <- _. auto using keepsBlocks_refl. }
  destruct H as (Prof1 & F1 & F2 & F3 & _ & HB & HA & HP & H).
  injection H as _ HF3 _. subst F'.
  assert (getName F1 = getName F /\ getMetadata F1 = getMetadata F /\
          Forall2 keepsBlock (blocks F) (blocks F1)) as (Hn1 & Hm1 & Hb1).
  { destruct (ProfileBranches Flags).
    - apply addBranchInstrumentation_result in HB as (? & ? & HF & _).
      repeat split; [done..|].
      eapply Forall2_impl; [exact HF|]. apply withBranchCounters_keeps.
    - injection HB as <- <-. auto using keepsBlocks_refl. }
  assert (getName F2 = getName F1 /\ getMetadata F2 = getMetadata F1 /\
          Forall2 keepsBlock (blocks F1) (blocks F2)) as (Hn2 & Hm2 & Hb2).
  { destruct (ProfileAllocations Flags).
    - apply addAllocInstrumentation_result in HA as (? & ? & HF).
      repeat split; [done..|].
      eapply Forall2_impl; [exact HF|]. apply withAllocCounters_keeps.
    - injection HA as <-. auto using keepsBlocks_refl. }
  assert (getName F3 = getName F2 /\
          (forall Kind, Kind ≠ MD_prof -> getMetadata F3 !! Kind = getMetadata F2 !! Kind) /\
          Forall2 keepsBlock (blocks F2) (blocks F3)) as (Hn3 & Hm3 & Hb3).
  { destruct (ApplyPGO Flags).
    - by apply applyPGOInstrumentation_keeps in HP.
    - injection HP as <-. auto using keepsBlocks_refl. }
  split; [congruence|]. split.
  - intros Kind Hne. rewrite Hm3 by done. congruence.
  - eapply Forall2_trans; [apply keepsBlock_trans|exact Hb1|].
    eapply Forall2_trans; [apply keepsBlock_trans|exact Hb2|exact Hb3].
Qed.

(** X15.  Whatever it is asked to do, the pre-optimization pass keeps the
    function's name, every metadata attachment other than the MD_prof one,
    the blocks and their order; every block keeps its identity and the
    kind and targets of its terminator, and no instruction of the
    function is removed or moved: instructions are only added. *)
Theorem preopt_keeps_the_code (sw : ForceSwitches) (LoopCount : Function -> Z)
    (JITProf JITProf' : option ProfileStore) (F F' : Function)
    (PA : PreservedAnalyses.t) :
  JITPreoptimizationProfiler_run sw LoopCount JITProf F = Ok (PA, F', JITProf') ->
  getName F' = getName F /\
  (forall Kind : string, Kind ≠ MD_prof ->
     getMetadata F' !! Kind = getMetadata F !! Kind) /\
  Forall2 keepsBlock (blocks F) (blocks F').
Proof.
  intros H.
  destruct (preopt_run_keeps sw LoopCount JITProf JITProf' F F' PA H) as (Hn & Hm & Hb).
  repeat split; assumption.
Qed.

Lemma preopt_keeps_the_code_witness :
  Forall2 keepsBlock (blocks foo_branches_only)
    [ mkBasicBlock (Block 0) [OtherInst "add"] (mkTerminator (Br (Block 1)) None);
      mkBasicBlock (Block 1)
        ([OtherInst "icmp"] ++ branchCounters "foo" 0 (VReg (Numbered 5)))
        (mkTerminator (CondBr (VReg (Numbered 5)) (Block 2) (Block 3)) None);
      mkBasicBlock (Block 2) [] ret;
      mkBasicBlock (Block 3) [] ret ].
Proof.
  eapply (preopt_keeps_the_code switches_off no_loops (Some ∅) _ foo_branches_only
            (set_blocks _ foo_branches_only)).
  reflexivity.
Defined.

(** X16.  A run of the pre-optimization pass that gets past its early
    returns changes one entry of the store, the one under the function's
    name, and nothing else.  A profile that was there keeps its call
    count, its allocation counters and its Loops, BBs and Insts: only its
    branch slots may change, and only when branches are requested.  A
    profile that was not there is created with counters at zero and with
    Loops, BBs and Insts taken from the function as it is now.  With
    branches requested the profile ends with one slot per block. *)
Theorem preopt_store_effect (sw : ForceSwitches) (LoopCount : Function -> Z)
    (FunctionProfiles : ProfileStore) (F F' : Function) (Flags : ProfilingFlags)
    (PA : PreservedAnalyses.t) (JITProf' : option ProfileStore) :
  fromFunction sw F = Ok Flags ->
  ProfileBranches Flags = true \/ ProfileAllocations Flags = true
    \/ ApplyPGO Flags = true ->
  JITPreoptimizationProfiler_run sw LoopCount (Some FunctionProfiles) F
    = Ok (PA, F', JITProf') ->
  exists Slots' : list (option BranchInfo.t),
    JITProf'
      = Some (<[getName F :=
                  set_BranchProfiles Slots'
                    (default (profileAtCreation LoopCount F)
                       (getProfile FunctionProfiles (getName F)))]>
                FunctionProfiles) /\
    (ProfileBranches Flags = false ->
     Slots' = BranchProfiles (default (profileAtCreation LoopCount F)
                                (getProfile FunctionProfiles (getName F)))) /\
    (ProfileBranches Flags = true -> length Slots' = length (blocks F)).
Proof.
  intros HF Hreq H.
  apply preopt_run_stages in H as (Flags' & HF' & [(Hb & Ha & Hp & _)|H]).
  { rewrite HF in HF'. injection HF' as <-. destruct Hreq as [|[|]]; congruence. }
  rewrite HF in HF'. injection HF' as <-.
  destruct H as (Prof1 & F1 & F2 & F3 & _ & HB & _ & _ & H).
  injection H as _ _ HJ. subst JITProf'.
  set (base := default (profileAtCreation LoopCount F)
                 (getProfile FunctionProfiles (getName F))).
  assert ((getOrCreateProfile FunctionProfiles (getName F)
             (fun _ => profileAtCreation LoopCount F)).1 = base) as Hbase.
  { unfold base, getOrCreateProfile, getProfile.
    by destruct (FunctionProfiles !! getName F). }
  assert (forall P : FunctionProfile,
            <[getName F := P]>
              (getOrCreateProfile FunctionProfiles (getName F)
                 (fun _ => profileAtCreation LoopCount F)).2
            = <[getName F := P]> FunctionProfiles) as Hstore.
  { intros P. unfold getOrCreateProfile.
    destruct (FunctionProfiles !! getName F); cbn [snd]; [done|].
    apply insert_insert_eq. }
  rewrite Hbase in HB. rewrite Hstore.
  exists (BranchProfiles Prof1). destruct (ProfileBranches Flags).
  - apply addBranchInstrumentation_result in HB as (_ & _ & _ & Hl & _ & HP).
    split; [by rewrite <- HP|]. split; [done|]. by intros _.
  - injection HB as <- _. split; [|by split].
    do 2 f_equal. by destruct base.
Qed.

Lemma preopt_store_effect_witness :
  exists Slots' : list (option BranchInfo.t),
    Some (<[ "foo" :=
               mkFunctionProfile 0 (AllocInfo.mk 0 0) (AllocInfo.mk 0 0)
                 [Some (BranchInfo.mk 0 0); None; None; None] 0 4 6 ]>
            (∅ : ProfileStore))
      = Some (<[getName foo_branches_only :=
                  set_BranchProfiles Slots'
                    (default (profileAtCreation no_loops foo_branches_only)
                       (getProfile ∅ (getName foo_branches_only)))]> ∅) /\
    (ProfileBranches (mkProfilingFlags false true false false) = false ->
     Slots' = BranchProfiles (default (profileAtCreation no_loops foo_branches_only)
                                (getProfile ∅ (getName foo_branches_only)))) /\
    (ProfileBranches (mkProfilingFlags false true false false) = true ->
     length Slots' = length (blocks foo_branches_only)).
Proof.
  eapply (preopt_store_effect switches_off no_loops ∅ foo_branches_only _
            (mkProfilingFlags false true false false)).
  - reflexivity.
  - left. reflexivity.
  - reflexivity.
Defined.

(** ** The post-optimization pass as a whole *)

Lemma postopt_run_stages (sw : ForceSwitches) (FunctionProfiles : ProfileStore)
    (F : Function) (r : PassResult) :
  JITPostoptimizationProfiler_run sw (Some FunctionProfiles) F = Ok r ->
  exists Flags : ProfilingFlags,
    fromFunction sw F = Ok Flags /\
    ((r = (PreservedAnalyses.all, F, Some FunctionProfiles) /\
      ((ProfileAllocations Flags = false /\ ProfileCalls Flags = false) \/
       getProfile FunctionProfiles (getName F) = None)) \/
     exists (Prof : FunctionProfile) (F1 F2 : Function),
       getProfile FunctionProfiles (getName F) = Some Prof /\
       (if ProfileCalls Flags then addCallInstrumentation Prof F else Ok F) = Ok F1 /\
       (if ProfileAllocations Flags then addAllocInstrumentation false F1 else Ok F1)
         = Ok F2 /\
       r = (PreservedAnalyses.none, F2, Some FunctionProfiles)).
Proof.
  unfold JITPostoptimizationProfiler_run.
  destruct (fromFunction sw F) as [Flags|]; [cbn [mbind result_bind]|done].
  intros H. exists Flags. split; [done|].
  destruct (negb (ProfileAllocations Flags) && negb (ProfileCalls Flags)) eqn:Hreq.
  { left. split; [congruence|]. left.
    apply andb_true_iff in Hreq as [Ha Hc]. by apply negb_true_iff in Ha, Hc. }
  destruct (getProfile FunctionProfiles (getName F)) as [Prof|];
    [|left; split; [congruence|by right]].
  right.
  destruct (if ProfileCalls Flags then _ else _) as [F1|] eqn:HC;
    [cbn [mbind result_bind] in H|done].
  destruct (if ProfileAllocations Flags then _ else _) as [F2|] eqn:HA;
    [cbn [mbind result_bind] in H|done].
  injection H as <-. by exists Prof, F1, F2.
Qed.

Lemma addCallInstrumentation_keeps_name (Prof : FunctionProfile) (F F' : Function) :
  addCallInstrumentation Prof F = Ok F' ->
  getName F' = getName F /\ getMetadata F' = getMetadata F.
Proof.
  unfold addCallInstrumentation.
  destruct (blocks F) as [|Entry Rest]; [done|].
  destruct (getMetadata F !! "julia.prof.reporter") as [MD|]; [|by intros [= <-]].
  destruct (castMDTuple MD) as [ops|]; [cbn [mbind result_bind]|done].
  destruct (assert _); [cbn [mbind result_bind]|done].
  destruct (extractProfNum ops 0) as [Limit|]; [cbn [mbind result_bind]|done].
  destruct (assert _); [cbn [mbind result_bind]|done].
  destruct (getSExtValue Limit); [cbn [mbind result_bind]|done].
  destruct (collectArgs _); [cbn [mbind result_bind]|done].
  destruct (extractProfNum ops 1); [cbn [mbind result_bind]|done].
  by intros [= <-].
Qed.

Lemma addCallInstrumentation_without_reporter (Prof : FunctionProfile)
    (F F' : Function) :
  getMetadata F !! "julia.prof.reporter" = None ->
  addCallInstrumentation Prof F = Ok F' ->
  exists (Entry : BasicBlock) (Rest : list BasicBlock),
    blocks F = Entry :: Rest /\
    F' = set_blocks
           (mkBasicBlock (bb_label Entry)
              (AtomicRMWAdd (Some CallCountReg)
                 (counterPtr (getName F) CallCountCell) (i64 1) :: bb_insts Entry)
              (bb_term Entry) :: Rest) F.
Proof.
  intros HMD. unfold addCallInstrumentation. rewrite HMD.
  destruct (blocks F) as [|Entry Rest]; [done|].
  intros [= <-]. by exists Entry, Rest.
Qed.

Lemma postopt_run_keeps (sw : ForceSwitches) (JITProf JITProf' : option ProfileStore)
    (F F' : Function) (PA : PreservedAnalyses.t) :
  JITPostoptimizationProfiler_run sw JITProf F = Ok (PA, F', JITProf') ->
  getName F' = getName F /\
  getMetadata F' = getMetadata F /\
  (getMetadata F !! "julia.prof.reporter" = None ->
   Forall2 keepsBlock (blocks F) (blocks F')).
Proof.
  destruct JITProf as [st|].
  2:{ intros [= _ <- _]. auto using keepsBlocks_refl. }
  intros H. apply postopt_run_stages in H as (Flags & _ & [[H _]|H]).
  { injection H as _ <- _. auto using keepsBlocks_refl. }
  destruct H as (Prof & F1 & F2 & _ & HC & HA & H).
  injection H as _ HF2 _. subst F'.
  assert (getName F1 = getName F /\ getMetadata F1 = getMetadata F /\
          (getMetadata F !! "julia.prof.reporter" = None ->
           Forall2 keepsBlock (blocks F) (blocks F1))) as (Hn1 & Hm1 & Hb1).
  { destruct (ProfileCalls Flags).
    - destruct (addCallInstrumentation_keeps_name _ _ _ HC) as [Hn Hm].
      split; [done|]. split; [done|]. intros HMD.
      apply addCallInstrumentation_without_reporter in HC
        as (Entry & Rest & -> & ->); [|done].
      cbn [set_blocks blocks]. apply Forall2_cons. split.
      + repeat split. cbn [bb_insts]. by apply sublist_cons.
      + apply keepsBlocks_refl.
    - injection HC as <-. auto using keepsBlocks_refl. }
  assert (getName F2 = getName F1 /\ getMetadata F2 = getMetadata F1 /\
          Forall2 keepsBlock (blocks F1) (blocks F2)) as (Hn2 & Hm2 & Hb2).
  { destruct (ProfileAllocations Flags).
    - apply addAllocInstrumentation_result in HA as (? & ? & HF).
      repeat split; [done..|].
      eapply Forall2_impl; [exact HF|]. apply withAllocCounters_keeps.
    - injection HA as <-. auto using keepsBlocks_refl. }
  split; [congruence|]. split; [congruence|].
  intros HMD. eapply Forall2_trans; [apply keepsBlock_trans|by apply Hb1|exact Hb2].
Qed.

(** X17.  The post-optimization pass never changes the function's name or
    its metadata.  For a function without a reporter annotation it also
    keeps the blocks and their order, every block's identity and the kind
    and targets of its terminator, and every instruction in its place
    among the ones it adds: the control flow is untouched. *)
Theorem postopt_keeps_the_code (sw : ForceSwitches)
    (JITProf JITProf' : option ProfileStore) (F F' : Function)
    (PA : PreservedAnalyses.t) :
  JITPostoptimizationProfiler_run sw JITProf F = Ok (PA, F', JITProf') ->
  getName F' = getName F /\
  getMetadata F' = getMetadata F /\
  (getMetadata F !! "julia.prof.reporter" = None ->
   Forall2 keepsBlock (blocks F) (blocks F')).
Proof.
  intros H. destruct (postopt_run_keeps sw JITProf JITProf' F F' PA H) as (Hn & Hm & Hb).
  repeat split; assumption.
Qed.

Lemma postopt_keeps_the_code_witness :
  getName
    (set_blocks
       [ mkBasicBlock (Block 0)
           [ CallInst (Direct "julia.gc_alloc_obj") [VArg 0; i64 16; VArg 1];
             OtherInst "store";
             IntCast64 (AllocSizeReg 0 2) (i64 1400);
             AtomicRMWAdd None (counterPtr "foo" (AllocSizeCell false))
               (VReg (AllocSizeReg 0 2));
             AtomicRMWAdd None (counterPtr "foo" (AllocCountCell false)) (i64 1);
             CallInst (Direct "ijl_gc_pool_alloc") [VArg 0; i64 1400; i64 32] ]
           ret;
         returning_block ] foo_allocating)
  = getName foo_allocating.
Proof.
  eapply (postopt_keeps_the_code switches_off (Some store_with_foo) _ foo_allocating).
  reflexivity.
Defined.

Lemma runEntry_threshold_check (F' : Function) (fn : string) (T : Z)
    (fp : Constant) (Args : list Value) (mem : ProfileStore) (P : FunctionProfile) :
  hasThresholdCheck F' fn T fp Args ->
  mem !! fn = Some P ->
  runEntry F' mem
  = Some (<[fn := set_CallCount (wrap64 (CallCount P + 1)) P]> mem,
          if CallCount P =? T then [Called fp Args] else []).
Proof.
  intros (l0 & Weights & others & HB) HP. unfold runEntry. rewrite HB.
  cbn [bb_label length].
  set (Head := mkBasicBlock l0 _ _) in *.
  set (Then := mkBasicBlock (ThenOf l0) _ _) in *.
  assert (findBlock F' l0 = Some Head) as HHead.
  { unfold findBlock. rewrite HB. cbn. by rewrite bool_decide_eq_true_2. }
  assert (findBlock F' (ThenOf l0) = Some Then) as HThen.
  { unfold findBlock. rewrite HB. cbn.
    rewrite bool_decide_eq_false_2 by apply label_neq_ThenOf.
    by rewrite bool_decide_eq_true_2. }
  set (mem1 := <[fn := set_CallCount (wrap64 (CallCount P + 1)) P]> mem).
  set (env1 := setReg ReportReg (if CallCount P =? T then 1 else 0)
                 (setReg CallCountReg (CallCount P) (fun _ => None))).
  assert (exec_insts (bb_insts Head) (mkMachine mem (fun _ => None) [])
          = Some (mkMachine mem1 env1 [])) as HI.
  { cbn. rewrite HP. cbn. done. }
  destruct (Z.eqb_spec (CallCount P) T) as [HT|HT].
  - erewrite (exec_until_step _ F' _ _ (ThenOf l0) Head);
      [|apply label_neq_TailOf|exact HHead|exact HI|by cbn].
    erewrite (exec_until_step _ F' _ _ (TailOf l0) Then);
      [|done|exact HThen|by cbn|by cbn].
    by rewrite exec_until_stop.
  - erewrite (exec_until_step _ F' _ _ (TailOf l0) Head);
      [|apply label_neq_TailOf|exact HHead|exact HI|by cbn].
    by rewrite exec_until_stop.
Qed.

Lemma runCalls_threshold_check (F' : Function) (fn : string) (T : Z)
    (fp : Constant) (Args : list Value) (n : nat) (mem : ProfileStore)
    (P : FunctionProfile) :
  hasThresholdCheck F' fn T fp Args ->
  mem !! fn = Some P ->
  0 ≤ CallCount P < u64_modulus ->
  CallCount P + Z.of_nat n ≤ u64_modulus ->
  exists mem' : ProfileStore,
    runCalls n F' mem
    = Some (mem', expectedReports T (Called fp Args) (CallCount P) n) /\
    mem' !! fn = Some (set_CallCount (wrap64 (CallCount P + Z.of_nat n)) P).
Proof.
  intros HF'. revert mem P. induction n as [|n IH]; intros mem P HP Hc Hn.
  - exists mem. split; [done|]. rewrite HP. f_equal.
    rewrite Z.add_0_r, wrap64_small by done. by destruct P.
  - cbn [runCalls expectedReports].
    rewrite (runEntry_threshold_check _ _ _ _ _ _ _ HF' HP).
    cbn [mbind option_bind].
    set (P1 := set_CallCount (wrap64 (CallCount P + 1)) P).
    set (mem1 := <[fn := P1]> mem).
    assert (n = O \/ wrap64 (CallCount P + 1) = CallCount P + 1) as Hcase.
    { destruct n; [by left|right]. apply wrap64_small. lia. }
    destruct (IH mem1 P1) as (mem' & Hrun & Hlook).
    + apply lookup_insert_eq.
    + apply wrap64_bound.
    + cbn [P1 set_CallCount CallCount].
      destruct Hcase as [-> | ->]; [|lia].
      pose proof (wrap64_bound (CallCount P + 1)). lia.
    + exists mem'. rewrite Hrun. cbn [mbind option_bind]. split.
      * do 3 f_equal. cbn [P1 set_CallCount CallCount].
        destruct Hcase as [-> | ->]; done.
      * rewrite Hlook. f_equal. unfold P1 at 2. rewrite set_CallCount_twice.
        f_equal. cbn [P1 set_CallCount CallCount].
        unfold wrap64. rewrite Zplus_mod_idemp_l. f_equal. lia.
Qed.

Lemma addAllocInstrumentation_keeps_threshold_check (F1 F2 : Function)
    (fn : string) (T : Z) (fp : Constant) (Args : list Value) :
  hasThresholdCheck F1 fn T fp Args ->
  addAllocInstrumentation false F1 = Ok F2 ->
  hasThresholdCheck F2 fn T fp Args.
Proof.
  intros (l0 & Weights & others & HB). unfold addAllocInstrumentation. rewrite HB.
  unfold counterPtr, i64.
  cbn [addAllocInstrumentation_blocks addAllocInstrumentation_insts allocCounters
       bb_insts bb_label bb_term mbind result_bind app].
  destruct (addAllocInstrumentation_blocks (getName F1) false 2 others) as [others'|];
    cbn [mbind result_bind]; [|done].
  intros [= <-]. by exists l0, Weights, others'.
Qed.

(** X18.  For a function with a profile, calls requested and a reporter
    annotation of threshold [T], the function the post-optimization pass
    returns counts and reports as follows, whether or not allocations are
    requested too: over [n] successive calls that start with the counter
    at [c] and do not wrap it, call number [k] (from 0) invokes the
    callback with the annotation's arguments iff [c + k = T] and is
    silent otherwise, and the counter ends at [c + n]. *)
Theorem postopt_threshold_check (sw : ForceSwitches)
    (FunctionProfiles : ProfileStore) (F F' : Function) (Flags : ProfilingFlags)
    (Prof : FunctionProfile) (ReporterMD : list Metadata)
    (T : Z) (w : N) (fp : Z) (Args : list Value)
    (PA : PreservedAnalyses.t) (JITProf' : option ProfileStore) :
  fromFunction sw F = Ok Flags ->
  ProfileCalls Flags = true ->
  getProfile FunctionProfiles (getName F) = Some Prof ->
  getMetadata F !! "julia.prof.reporter" = Some (MDTuple ReporterMD) ->
  extractProfNum ReporterMD 0 = Ok (64%N, T) ->
  extractProfNum ReporterMD 1 = Ok (w, fp) ->
  collectArgs (drop 2 ReporterMD) = Ok Args ->
  JITPostoptimizationProfiler_run sw (Some FunctionProfiles) F
    = Ok (PA, F', JITProf') ->
  forall (mem : ProfileStore) (P : FunctionProfile) (n : nat),
    mem !! getName F = Some P ->
    0 ≤ CallCount P < u64_modulus ->
    CallCount P + Z.of_nat n ≤ u64_modulus ->
    exists (mem' : ProfileStore) (fired : list (list Event)),
      runCalls n F' mem = Some (mem', fired) /\
      CallCount <$> mem' !! getName F
        = Some (wrap64 (CallCount P + Z.of_nat n)) /\
      length fired = n /\
      (forall k : nat, (k < n)%nat ->
         fired !! k
         = Some (if CallCount P + Z.of_nat k =? T
                 then [Called (ConstantInt w fp) Args] else [])) /\
      reporting fired
        = if bool_decide (CallCount P ≤ T < CallCount P + Z.of_nat n)
          then 1%nat else 0%nat.
Proof.
  intros HF Hcalls HProf HMD H0 H1 HA Hrun.
  assert (hasThresholdCheck F' (getName F) T (ConstantInt w fp) Args) as Hcheck.
  { apply postopt_run_stages in Hrun as (Flags' & HF' & H).
    rewrite HF in HF'. injection HF' as <-.
    destruct H as [[_ [[_ Hc]|Hnone]]|H]; [congruence..|].
    destruct H as (Prof' & F1 & F2 & HProf' & HC & HAl & H).
    injection H as _ HF2 _. subst F'.
    rewrite Hcalls in HC.
    assert (hasThresholdCheck F1 (getName F) T (ConstantInt w fp) Args) as H1check.
    { destruct (blocks F) as [|Entry Rest] eqn:HBs.
      { unfold addCallInstrumentation in HC. by rewrite HBs in HC. }
      destruct (addCallInstrumentation_reporter Prof' F Entry Rest ReporterMD T w fp
                  Args HBs HMD H0 H1 HA) as [Weights HF1].
      rewrite HF1 in HC. injection HC as <-.
      by exists (bb_label Entry), Weights,
        (mkBasicBlock (TailOf (bb_label Entry)) (bb_insts Entry) (bb_term Entry) :: Rest). }
    destruct (ProfileAllocations Flags).
    - by apply (addAllocInstrumentation_keeps_threshold_check F1).
    - by injection HAl as <-. }
  intros mem P n HP Hc Hn.
  destruct (runCalls_threshold_check F' (getName F) T (ConstantInt w fp) Args n mem P
              Hcheck HP Hc Hn) as (mem' & Hrun' & Hlook).
  exists mem', (expectedReports T (Called (ConstantInt w fp) Args) (CallCount P) n).
  split; [exact Hrun'|]. split; [by rewrite Hlook|].
  split; [apply length_expectedReports|].
  split; [intros k Hk; by apply lookup_expectedReports|].
  apply reporting_expectedReports.
Qed.

Lemma postopt_threshold_check_witness :
  exists (mem' : ProfileStore) (fired : list (list Event)),
    runCalls 3
      (match JITPostoptimizationProfiler_run switches_off (Some store_with_foo)
               foo_with_reporter_allocating with
       | Ok r => r.1.2
       | Fault _ => foo_with_reporter_allocating
       end) store_with_foo = Some (mem', fired) /\
    CallCount <$> mem' !! getName foo_with_reporter_allocating
      = Some (wrap64 (CallCount make_unique_FunctionProfile + Z.of_nat 3)) /\
    length fired = 3%nat /\
    (forall k : nat, (k < 3)%nat ->
       fired !! k
       = Some (if CallCount make_unique_FunctionProfile + Z.of_nat k =? 2
               then [Called (ConstantInt 64 4096) [VConst (ConstantInt 32 7)]]
               else [])) /\
    reporting fired
      = if bool_decide (CallCount make_unique_FunctionProfile ≤ 2
                        < CallCount make_unique_FunctionProfile + Z.of_nat 3)
        then 1%nat else 0%nat.
Proof.
  eapply (postopt_threshold_check switches_off store_with_foo
            foo_with_reporter_allocating _
            (mkProfilingFlags true false true false) make_unique_FunctionProfile
            [ ConstantAsMetadata (ConstantInt 64 2);
              ConstantAsMetadata (ConstantInt 64 4096);
              ConstantAsMetadata (ConstantInt 32 7) ]
            2 64%N 4096 [VConst (ConstantInt 32 7)]);
    try reflexivity.
  - cbn. unfold u64_modulus. lia.
  - cbn. unfold u64_modulus. lia.
Defined.

(** ** The two passes one after the other *)

(** X19.  After a run of the pre-optimization pass that got past its
    early returns, the post-optimization pass is set to work on the
    result: the function still resolves to the same flags, its profile
    is in the store, and so a post-optimization run for which calls or
    allocations are requested never takes an early return: when it
    returns, it reports [none] and leaves the store as the first pass
    made it. *)
Theorem postopt_finds_the_profile_preopt_made (sw : ForceSwitches)
    (LoopCount : Function -> Z) (FunctionProfiles : ProfileStore)
    (F F1 : Function) (Flags : ProfilingFlags) (JITProf1 : option ProfileStore) :
  fromFunction sw F = Ok Flags ->
  JITPreoptimizationProfiler_run sw LoopCount (Some FunctionProfiles) F
    = Ok (PreservedAnalyses.none, F1, JITProf1) ->
  fromFunction sw F1 = Ok Flags /\
  exists FunctionProfiles1 : ProfileStore,
    JITProf1 = Some FunctionProfiles1 /\
    is_Some (getProfile FunctionProfiles1 (getName F1)) /\
    (ProfileCalls Flags = true \/ ProfileAllocations Flags = true ->
     forall r : PassResult,
       JITPostoptimizationProfiler_run sw JITProf1 F1 = Ok r ->
       r.1.1 = PreservedAnalyses.none /\ r.2 = JITProf1).
Proof.
  intros HF Hrun.
  destruct (preopt_run_keeps _ _ _ _ _ _ _ Hrun) as (Hn & Hm & _).
  assert (fromFunction sw F1 = Ok Flags) as HF1.
  { rewrite <- HF. unfold fromFunction. by rewrite Hm. }
  split; [done|].
  apply preopt_run_stages in Hrun as (Flags' & _ & [(_ & _ & _ & H)|H]); [done|].
  destruct H as (Prof1 & F1' & F2 & F3 & _ & _ & _ & _ & H).
  injection H as _ HJ. subst JITProf1. eexists. split; [done|].
  assert (getProfile
            (<[getName F := Prof1]>
               (getOrCreateProfile FunctionProfiles (getName F)
                  (fun _ => profileAtCreation LoopCount F)).2) (getName F1)
          = Some Prof1) as HP.
  { rewrite Hn. apply lookup_insert_eq. }
  split; [by rewrite HP|].
  intros Hreq r Hpost. split; [|by apply postopt_keeps_store in Hpost].
  apply postopt_run_stages in Hpost as (Flags2 & HF2 & H).
  rewrite HF1 in HF2. injection HF2 as <-.
  destruct H as [[_ [[Ha Hc]|Hnone]]|(? & ? & ? & _ & _ & _ & ->)]; [| |done].
  - destruct Hreq; congruence.
  - congruence.
Qed.

Lemma postopt_finds_the_profile_preopt_made_witness :
  fromFunction switches_off
    (set_blocks
       [ mkBasicBlock (Block 0)
           [ IntCast64 (AllocSizeReg 0 0) (i64 16);
             AtomicRMWAdd None (counterPtr "foo" (AllocSizeCell true))
               (VReg (AllocSizeReg 0 0));
             AtomicRMWAdd None (counterPtr "foo" (AllocCountCell true)) (i64 1);
             CallInst (Direct "julia.gc_alloc_obj") [VArg 0; i64 16; VArg 1];
             OtherInst "store";
             CallInst (Direct "ijl_gc_pool_alloc") [VArg 0; i64 1400; i64 32] ]
           ret;
         returning_block ] foo_allocating)
  = Ok (mkProfilingFlags true false false false).
Proof.
  eapply (postopt_finds_the_profile_preopt_made switches_off no_loops ∅
            foo_allocating).
  - reflexivity.
  - reflexivity.
Defined.

(** X20.  Calls alone never get a function instrumented.  When the flags
    request none of branches, allocations and apply-PGO and the store
    has no profile for the function, the pre-optimization pass returns
    at once without creating one, and the post-optimization pass, run
    next on what the first returned, finds no profile and returns at
    once too, whether or not calls are requested: function and store are
    as they were and no call counter is installed. *)
Theorem calls_alone_are_never_counted (sw : ForceSwitches)
    (LoopCount : Function -> Z) (FunctionProfiles : ProfileStore)
    (F : Function) (Flags : ProfilingFlags) :
  fromFunction sw F = Ok Flags ->
  ProfileBranches Flags = false ->
  ProfileAllocations Flags = false ->
  ApplyPGO Flags = false ->
  getProfile FunctionProfiles (getName F) = None ->
  JITPreoptimizationProfiler_run sw LoopCount (Some FunctionProfiles) F
    ≫= (fun r => JITPostoptimizationProfiler_run sw r.2 r.1.2)
  = Ok (PreservedAnalyses.all, F, Some FunctionProfiles).
Proof.
  intros HF Hb Ha Hp Hnone.
  unfold JITPreoptimizationProfiler_run. rewrite HF. cbn [mbind result_bind].
  rewrite Hb, Ha, Hp. cbn [negb andb mbind result_bind fst snd].
  unfold JITPostoptimizationProfiler_run. rewrite HF. cbn [mbind result_bind].
  rewrite Ha, Hnone. by destruct (ProfileCalls Flags).
Qed.

Lemma calls_alone_are_never_counted_witness :
  JITPreoptimizationProfiler_run switches_off no_loops (Some ∅) foo_calls_only
    ≫= (fun r => JITPostoptimizationProfiler_run switches_off r.2 r.1.2)
  = Ok (PreservedAnalyses.all, foo_calls_only, Some ∅).
Proof.
  apply (calls_alone_are_never_counted switches_off no_loops ∅ foo_calls_only
           (mkProfilingFlags false false true false));
    reflexivity.
Defined.

(** ** The instruction count of a new profile *)

Lemma wrap32_add_l (a b : Z) : wrap32 (wrap32 a + b) = wrap32 (a + b).
Proof. unfold wrap32. by rewrite Zplus_mod_idemp_l. Qed.

Lemma countInsts_fold (bs : list BasicBlock) (acc : Z) :
  fold_left (fun Acc BB => wrap32 (Acc + BasicBlock_size BB)) bs (wrap32 acc)
  = wrap32 (acc + Z.of_nat (length (concat (map bb_insts bs)) + length bs)).
Proof.
  revert acc. induction bs as [|BB bs IH]; intros acc.
  - cbn. by rewrite Z.add_0_r.
  - cbn [fold_left map concat length]. rewrite wrap32_add_l, IH.
    f_equal. unfold BasicBlock_size. rewrite length_app. lia.
Qed.

(** X21.  The instruction count a new profile is given is the number of
    instructions of the function, terminators included, reduced modulo
    2^32: it is always below 2^32, and it is the true count for a
    function of fewer than 2^32 instructions. *)
Theorem countInsts_is_the_count_modulo_2_32 (F : Function) :
  countInsts F = wrap32 (instructionCount F) /\
  0 ≤ countInsts F < 2 ^ 32 /\
  (instructionCount F < 2 ^ 32 -> countInsts F = instructionCount F).
Proof.
  assert (countInsts F = wrap32 (instructionCount F)) as H.
  { unfold countInsts, instructionCount.
    change 0 with (wrap32 0) at 1. by rewrite countInsts_fold. }
  split; [done|]. rewrite H. unfold wrap32. split.
  - by apply Z.mod_pos_bound.
  - intros Hlt. apply Z.mod_small. unfold instructionCount in *. lia.
Qed.

(** ** Call counting without a reporter, and malformed reporters *)

(** X22.  For a function without a reporter annotation the call
    instrumentation puts one instruction at the head of the entry block
    and changes nothing else.  Each time that instruction runs, the call
    count of the function's profile goes up by one (in 64-bit
    arithmetic); the rest of that profile and the other profiles are
    left alone and nothing is called. *)
Theorem call_counter_counts (Prof : FunctionProfile) (F F' : Function) :
  getMetadata F !! "julia.prof.reporter" = None ->
  addCallInstrumentation Prof F = Ok F' ->
  exists (Entry : BasicBlock) (Rest : list BasicBlock) (inst : Instruction),
    blocks F = Entry :: Rest /\
    blocks F'
    = mkBasicBlock (bb_label Entry) (inst :: bb_insts Entry) (bb_term Entry) :: Rest /\
    forall (m : Machine) (P : FunctionProfile),
      memory m !! getName F = Some P ->
      exists m' : Machine,
        exec_inst inst m = Some m' /\
        memory m'
        = <[getName F := set_CallCount (wrap64 (CallCount P + 1)) P]> (memory m) /\
        trace m' = trace m.
Proof.
  intros HMD H.
  apply addCallInstrumentation_without_reporter in H as (Entry & Rest & HB & ->);
    [|done].
  exists Entry, Rest. eexists. split; [done|]. split; [reflexivity|].
  intros m P HP. unfold counterPtr, i64.
  cbn [exec_inst eval mbind option_bind]. rewrite HP.
  cbn [mbind option_bind loadCell storeCell]. by eexists.
Qed.

Lemma call_counter_counts_witness :
  exists (Entry : BasicBlock) (Rest : list BasicBlock) (inst : Instruction),
    blocks foo_calls_only = Entry :: Rest /\
    blocks
      (set_blocks
         [ mkBasicBlock (Block 0)
             [ AtomicRMWAdd (Some CallCountReg) (counterPtr "foo" CallCountCell) (i64 1);
               OtherInst "add" ] ret ] foo_calls_only)
    = mkBasicBlock (bb_label Entry) (inst :: bb_insts Entry) (bb_term Entry) :: Rest /\
    forall (m : Machine) (P : FunctionProfile),
      memory m !! getName foo_calls_only = Some P ->
      exists m' : Machine,
        exec_inst inst m = Some m' /\
        memory m'
        = <[getName foo_calls_only := set_CallCount (wrap64 (CallCount P + 1)) P]>
            (memory m) /\
        trace m' = trace m.
Proof.
  apply (call_counter_counts make_unique_FunctionProfile foo_calls_only); reflexivity.
Defined.

(** X23.  What the call instrumentation does with a reporter annotation
    it cannot use, for a function that has an entry block: a node that
    is not a tuple fails the cast; a tuple with fewer than two operands
    fails the assertion; a tuple whose operand 0 is not a constant
    integer fails the cast. *)
Theorem addCallInstrumentation_rejects_malformed_reporters
    (Prof : FunctionProfile) (F : Function) (MD : MDNode) :
  blocks F ≠ [] ->
  getMetadata F !! "julia.prof.reporter" = Some MD ->
  ((forall ops : list Metadata, MD ≠ MDTuple ops) ->
   addCallInstrumentation Prof F = Fault BadCast) /\
  (forall ops : list Metadata,
     MD = MDTuple ops -> (length ops < 2)%nat ->
     addCallInstrumentation Prof F = Fault AssertionFailed) /\
  (forall (ops : list Metadata) (text : string),
     MD = MDTuple ops -> (2 ≤ length ops)%nat ->
     ops !! 0%nat = Some (OtherMetadata text) ->
     addCallInstrumentation Prof F = Fault BadCast).
Proof.
  unfold addCallInstrumentation.
  intros HB HMD. destruct (blocks F) as [|Entry Rest]; [done|]. rewrite HMD.
  repeat split.
  - intros Hnt. destruct MD as [ops| | |]; try done. by destruct (Hnt ops).
  - intros ops -> Hlen. cbn [castMDTuple mbind result_bind].
    rewrite bool_decide_eq_false_2 by (unfold getNumOperands; lia). done.
  - intros ops text -> Hlen H0. cbn [castMDTuple mbind result_bind].
    rewrite bool_decide_eq_true_2 by (unfold getNumOperands; lia).
    cbn [assert mbind result_bind]. unfold extractProfNum, getOperand.
    by rewrite H0.
Qed.

Lemma addCallInstrumentation_rejects_malformed_reporters_witness :
  addCallInstrumentation make_unique_FunctionProfile
    (mkFunction "foo"
       {[ "julia.prof.reporter" := MDTuple [ConstantAsMetadata (ConstantInt 64 2)] ]}
       [returning_block])
  = Fault AssertionFailed.
Proof.
  apply (proj1 (proj2
           (addCallInstrumentation_rejects_malformed_reporters
              make_unique_FunctionProfile
              (mkFunction "foo"
                 {[ "julia.prof.reporter" :=
                      MDTuple [ConstantAsMetadata (ConstantInt 64 2)] ]}
                 [returning_block])
              (MDTuple [ConstantAsMetadata (ConstantInt 64 2)])
              ltac:(discriminate) eq_refl))
           [ConstantAsMetadata (ConstantInt 64 2)] eq_refl).
  cbn. lia.
Defined.
